(** * Pending receivables view (src/components/receivables-management.tsx)

    A shallow embedding of the React component [ReceivablesManagement]:
    its component state, its three asynchronous handlers
    ([loadInitialData], [handleLoadMore], [handleDownload]), the part of
    [render] that depends on the pagination state, and the two report
    artifacts handed to jsPDF/autoTable and to Papa.unparse.

    JavaScript values are modelled as the code has them: a [number] is an
    IEEE-754 binary64 value ([spec_float]), strings are [string], arrays are
    lists, object literals with a fixed key order are association lists. *)

From Stdlib Require Import ZArith NArith List String Ascii Bool Lia.
From Stdlib Require Import Floats.SpecFloat.
From Stdlib Require Import DecimalString.
From Stdlib Require DecimalN.
Import ListNotations.

Local Open Scope string_scope.
Local Open Scope list_scope.

(** ** Text helpers *)

Module Text.

Definition chars (s : string) : list ascii := list_ascii_of_string s.
Definition text (cs : list ascii) : string := string_of_list_ascii cs.

Definition is_digit (c : ascii) : bool :=
  let n := nat_of_ascii c in (48 <=? n)%nat && (n <=? 57)%nat.

(** Decimal representation of a natural number, no leading zeros, ["0"] for
    zero: what template literals and [String(n)] print for a small
    non-negative integer. *)
Definition decimal (n : N) : list ascii :=
  chars (NilZero.string_of_uint (N.to_uint n)).

Fixpoint zeros (k : nat) : list ascii :=
  match k with
  | O => []
  | S k' => "0"%char :: zeros k'
  end.

(** [padStart(width, '0')] on a digit string. *)
Definition pad_left (width : nat) (cs : list ascii) : list ascii :=
  zeros (width - List.length cs) ++ cs.

(** "Exactly two decimal places": an optional minus sign, at least one
    integer digit, a point, and exactly two fraction digits. *)
Definition two_decimal_places (s : string) : bool :=
  let cs := chars s in
  let unsigned :=
    match cs with
    | c :: r => if Ascii.eqb c "-" then r else cs
    | [] => cs
    end in
  match rev unsigned with
  | d2 :: d1 :: "."%char :: ip =>
      is_digit d2 && is_digit d1 &&
      negb (Nat.eqb (List.length ip) 0) && forallb is_digit ip
  | _ => false
  end.

End Text.

(** ** JavaScript numbers and [Number.prototype.toFixed] *)

Module JsNumber.
Import Text.

(** A JS [number]: NaN, a signed infinity, a signed zero, or
    [(-1)^s * m * 2^e]. *)
Definition number : Type := spec_float.

(** The binary64 values among them. *)
Definition is_binary64 (x : number) : bool := valid_binary 53 1024 x.

Definition is_finite (x : number) : bool :=
  match x with
  | S754_zero _ | S754_finite _ _ _ => true
  | _ => false
  end.

(** [m * 2^e >= c], for a positive mantissa and an integer bound. *)
Definition mag_ge (m : positive) (e : Z) (c : Z) : bool :=
  if (0 <=? e)%Z then (c <=? Z.pos m * 2 ^ e)%Z
  else (c * 2 ^ (- e) <=? Z.pos m)%Z.

(** The integer [n] for which [n / 10^f - m * 2^e] is as close to zero as
    possible, the larger one on a tie (ECMAScript, toFixed step 11.a). *)
Definition nearest_scaled (f : nat) (m : positive) (e : Z) : Z :=
  let scale := (10 ^ Z.of_nat f)%Z in
  if (0 <=? e)%Z then (Z.pos m * 2 ^ e * scale)%Z
  else ((2 * scale * Z.pos m + 2 ^ (- e)) / 2 ^ (1 - e))%Z.

(** Steps 11.b-d of toFixed: digits of [n], left-padded with zeros to
    [f + 1] characters, with a point before the last [f]. *)
Definition fixed_digits (f : nat) (n : Z) : list ascii :=
  let m := pad_left (S f) (decimal (Z.to_N n)) in
  let k := List.length m in
  match f with
  | O => m
  | _ => firstn (k - f) m ++ "."%char :: skipn (k - f) m
  end.

(** *** Number::toString for values of magnitude at least 10^21

    The shortest digit string [s] (of [k] digits) and exponent [n] with
    [s * 10^(n-k)] rounding to the number, printed in exponent notation. *)

Fixpoint normalize (fuel : nat) (m : Z) (e : Z) : Z * Z :=
  match fuel with
  | O => (m, e)
  | S fuel' =>
      if (m <? 2 ^ 52)%Z then normalize fuel' (2 * m)%Z (e - 1)%Z else (m, e)
  end.

(** Does the integer [v] round (to nearest, ties to even) to the binary64
    value [m * 2^e], with [2^52 <= m < 2^53] and [e >= 2]? *)
Definition rounds_to (m e v : Z) : bool :=
  let x := (m * 2 ^ e)%Z in
  let up := (2 ^ (e - 1))%Z in
  let down := if (m =? 2 ^ 52)%Z then (2 ^ (e - 2))%Z else (2 ^ (e - 1))%Z in
  if Z.even m then (x - down <=? v)%Z && (v <=? x + up)%Z
  else (x - down <? v)%Z && (v <? x + up)%Z.

Fixpoint count_digits (fuel : nat) (x : Z) : nat :=
  match fuel with
  | O => O
  | S fuel' => if (x <=? 0)%Z then O else S (count_digits fuel' (x / 10)%Z)
  end.

(** Search for the least [k] in [k0 .. k0 + fuel]. Returns [(s, n)]. *)
Fixpoint shortest (fuel : nat) (k : nat) (m e : Z) (n : nat) : Z * nat :=
  let x := (m * 2 ^ e)%Z in
  let p := (10 ^ Z.of_nat (n - k))%Z in
  let lo := (x / p)%Z in
  let hi := (lo + 1)%Z in
  let ok_lo := rounds_to m e (lo * p)%Z in
  let ok_hi := rounds_to m e (hi * p)%Z in
  let pick :=
    if ok_lo && ok_hi then
      Some (if (x - lo * p <=? hi * p - x)%Z then lo else hi)
    else if ok_lo then Some lo
    else if ok_hi then Some hi
    else None in
  match pick, fuel with
  | Some s, _ =>
      if (s =? 10 ^ Z.of_nat k)%Z then ((s / 10)%Z, S n) else (s, n)
  | None, O => (lo, n)
  | None, S fuel' => shortest fuel' (S k) m e n
  end.

Definition exponent_notation (m : positive) (e : Z) : list ascii :=
  let '(m', e') := normalize 64 (Z.pos m) e in
  let n := count_digits 400 (m' * 2 ^ e')%Z in
  let '(s, n') := shortest 16 1 m' e' n in
  let ds := decimal (Z.to_N s) in
  let mant :=
    match ds with
    | d :: (_ :: _) as rest => d :: "."%char :: rest
    | _ => ds
    end in
  mant ++ chars "e+" ++ decimal (N.of_nat (n' - 1)).

(** [x.toFixed(f)] for [0 <= f <= 100] (the component only ever passes the
    literal 2; larger arguments raise a RangeError in JavaScript). *)
Definition toFixed (f : nat) (x : number) : string :=
  match x with
  | S754_nan => "NaN"
  | S754_infinity false => "Infinity"
  | S754_infinity true => "-Infinity"
  | S754_zero _ => text (fixed_digits f 0)
  | S754_finite s m e =>
      let sign := if s then ["-"%char] else [] in
      if mag_ge m e (10 ^ 21) then text (sign ++ exponent_notation m e)
      else text (sign ++ fixed_digits f (nearest_scaled f m e))
  end.

End JsNumber.

(** ** Calendar dates and the two date-fns patterns the component uses *)

Module DateFns.
Import Text.

(** The local calendar date read by [new Date()]: [getFullYear()] (which
    may be zero or negative), the month counted from 1, the day of the
    month. *)
Record Date : Type := mkDate { year : Z; month : N; day : N }.

(** A date of the common era with a four-digit year. *)
Definition valid_date (d : Date) : bool :=
  (0 <? year d)%Z && (year d <? 10000)%Z &&
  (1 <=? month d)%N && (month d <=? 12)%N &&
  (1 <=? day d)%N && (day d <=? 31)%N.

(** The year the tokens [y] and [yyyy] print: the year of the era, that
    is the year itself when positive and [1 - year] otherwise (year 0 is
    1 BC). *)
Definition eraYear (d : Date) : N :=
  Z.to_N (if (0 <? year d)%Z then year d else 1 - year d).

(** [format(d, 'yyyy-MM-dd')]: zero-padded year of the era (4), month (2),
    day (2). *)
Definition format_yyyy_MM_dd (d : Date) : string :=
  text (pad_left 4 (decimal (eraYear d)) ++ "-"%char ::
        pad_left 2 (decimal (month d)) ++ "-"%char ::
        pad_left 2 (decimal (day d))).

Definition month_names : list string :=
  ["January"; "February"; "March"; "April"; "May"; "June"; "July";
   "August"; "September"; "October"; "November"; "December"].

(** The en-US ordinal suffix of date-fns. *)
Definition ordinal_suffix (n : N) : string :=
  let rem100 := (n mod 100)%N in
  if ((20 <? rem100) || (rem100 <? 10))%N then
    match (rem100 mod 10)%N with
    | 1%N => "st"
    | 2%N => "nd"
    | 3%N => "rd"
    | _ => "th"
    end
  else "th".

(** [format(d, 'PPP')], the long localized date: [MMMM do, y]. *)
Definition format_PPP (d : Date) : string :=
  (nth (N.to_nat (month d) - 1) month_names "" ++ " " ++
   text (decimal (day d)) ++ ordinal_suffix (day d) ++ ", " ++
   text (decimal (eraYear d)))%string.

(** Shape of an ISO calendar date: [dddd-dd-dd]. *)
Definition is_iso_date (s : string) : bool :=
  match chars s with
  | [y1; y2; y3; y4; a; m1; m2; b; d1; d2] =>
      forallb is_digit [y1; y2; y3; y4; m1; m2; d1; d2] &&
      Ascii.eqb a "-" && Ascii.eqb b "-"
  | _ => false
  end.

End DateFns.

Import Text JsNumber DateFns.

(** ** Data model *)

(** [CustomerWithDue] of [@/lib/types]: the fields the view reads. *)
Module CustomerWithDue.
Record t : Type := mk { id : string; name : string; phone : string;
                        dueBalance : number }.
End CustomerWithDue.

(** The pagination cursor [lastVisible]. *)
Module LastVisible.
Record t : Type := mk { id : string; dueBalance : number }.
End LastVisible.

(** Argument and result of [getCustomersWithDueBalancePaginated]. *)
Record PageRequest : Type := mkPageRequest {
  userId : string;
  pageLimit : N;
  lastVisible : option LastVisible.t
}.

Record PageResponse : Type := mkPageResponse {
  customersWithDue : list CustomerWithDue.t;
  hasMoreResult : bool
}.

(** The signed-in user of [useAuth()]; every field the letterhead reads may
    be missing. *)
Module AuthUser.
Record t : Type := mk {
  companyName : option string;
  address : option string;
  phone : option string;
  bkashNumber : option string;
  bankInfo : option string
}.
End AuthUser.

(** JavaScript truthiness of a string, and of a possibly missing string. *)
Definition truthy (s : string) : bool :=
  match s with
  | EmptyString => false
  | _ => true
  end.

(** [v || fallback]. *)
Definition or_else (v : option string) (fallback : string) : string :=
  match v with
  | Some s => if truthy s then s else fallback
  | None => fallback
  end.

(** The four [useState] cells. *)
Record State : Type := mkState {
  customers : list CustomerWithDue.t;
  hasMore : bool;
  isInitialLoading : bool;
  isLoadingMore : bool
}.

Definition initialState : State :=
  {| customers := []; hasMore := true;
     isInitialLoading := true; isLoadingMore := false |}.

Definition setCustomers (f : list CustomerWithDue.t -> list CustomerWithDue.t)
  (s : State) : State :=
  {| customers := f (customers s); hasMore := hasMore s;
     isInitialLoading := isInitialLoading s;
     isLoadingMore := isLoadingMore s |}.

Definition setHasMore (b : bool) (s : State) : State :=
  {| customers := customers s; hasMore := b;
     isInitialLoading := isInitialLoading s;
     isLoadingMore := isLoadingMore s |}.

Definition setIsInitialLoading (b : bool) (s : State) : State :=
  {| customers := customers s; hasMore := hasMore s;
     isInitialLoading := b; isLoadingMore := isLoadingMore s |}.

Definition setIsLoadingMore (b : bool) (s : State) : State :=
  {| customers := customers s; hasMore := hasMore s;
     isInitialLoading := isInitialLoading s; isLoadingMore := b |}.

(** ** Report artifacts *)

(** An object literal with string values: its own properties in insertion
    order. *)
Definition JsObject : Type := list (string * string).

Definition Object_keys (o : JsObject) : list string := map fst o.
Definition Object_values (o : JsObject) : list string := map snd o.

(** [o[k]], printed; a missing property prints as the empty string. *)
Fixpoint property (o : JsObject) (k : string) : string :=
  match o with
  | [] => ""
  | (k', v) :: o' => if String.eqb k k' then v else property o' k
  end.

(** What [Papa.unparse] makes of an array of objects: a header line with
    the keys of the first object, then one record per object holding its
    value for each of those keys. The escaping of a record into a line of
    text is the library's and is not modelled. *)
Record Csv : Type := mkCsv {
  csvHeader : list (list string);
  csvData : list (list string)
}.

Definition Papa_unparse (data : list JsObject) : Csv :=
  match data with
  | [] => {| csvHeader := []; csvData := [] |}
  | first :: _ =>
      let fields := Object_keys first in
      {| csvHeader := [fields];
         csvData := map (fun o => map (property o) fields) data |}
  end.

(** What has been drawn on a jsPDF document. *)
Inductive Align : Type := AlignLeft | AlignRight | AlignCenter.
Inductive FontStyle : Type := FontNormal | FontBold.

Record TextItem : Type := mkTextItem {
  content : string;
  xPos : Z;
  yPos : Z;
  align : Align;
  fontSize : Z;
  fontStyle : FontStyle;
  textColor : Z
}.

Record AutoTable : Type := mkAutoTable {
  startY : Z;
  head : list (list string);
  tableBody : list (list string)
}.

Record PdfDoc : Type := mkPdfDoc {
  texts : list TextItem;
  tables : list AutoTable
}.

Inductive Artifact : Type :=
  | PdfFile (doc : PdfDoc)
  | CsvFile (csv : Csv).

Record Toast : Type := mkToast {
  variant : string;
  title : string;
  description : string
}.

Inductive FormatType : Type := pdf | csv.

(** ** Handlers as resumable tasks

    An [async] handler runs synchronously up to each [await], where it
    hands a request to the data layer and is resumed with the response.
    State setters are applied to the state current at that moment (so the
    functional updater of [setCustomers] sees the latest list), while the
    plain reads of [customers], [hasMore] and [isLoadingMore] are the values
    captured by the render that created the handler. *)

Inductive JsError : Type := TypeError.

Inductive Effect : Type :=
  | ShowToast (t : Toast)
  | SaveFile (filename : string) (a : Artifact).

Inductive Task (A : Type) : Type :=
  | Ret (a : A)
  | Throw (err : JsError)
  | Update (f : State -> State) (k : Task A)
  | Perform (e : Effect) (k : Task A)
  | NewDate (k : Date -> Task A)
  | AwaitPaginated (req : PageRequest) (k : PageResponse -> Task A)
  | AwaitAllDue (uid : string) (k : list CustomerWithDue.t -> Task A).

Arguments Ret {A} a.
Arguments Throw {A} err.
Arguments Update {A} f k.
Arguments Perform {A} e k.
Arguments NewDate {A} k.
Arguments AwaitPaginated {A} req k.
Arguments AwaitAllDue {A} uid k.

Fixpoint bind {A B : Type} (t : Task A) (g : A -> Task B) : Task B :=
  match t with
  | Ret a => g a
  | Throw err => Throw err
  | Update f k => Update f (bind k g)
  | Perform e k => Perform e (bind k g)
  | NewDate k => NewDate (fun d => bind (k d) g)
  | AwaitPaginated req k => AwaitPaginated req (fun r => bind (k r) g)
  | AwaitAllDue uid k => AwaitAllDue uid (fun r => bind (k r) g)
  end.

Definition update (f : State -> State) : Task unit := Update f (Ret tt).
Definition perform (e : Effect) : Task unit := Perform e (Ret tt).
Definition newDate : Task Date := NewDate Ret.
Definition getCustomersWithDueBalancePaginated (req : PageRequest)
  : Task PageResponse := AwaitPaginated req Ret.
Definition getCustomersWithDueBalance (uid : string)
  : Task (list CustomerWithDue.t) := AwaitAllDue uid Ret.

Declare Scope task_scope.
Delimit Scope task_scope with task.
Notation "x <- t ;; k" := (bind t (fun x => k))
  (at level 61, t at next level, right associativity) : task_scope.
Notation "t ;;; k" := (bind t (fun _ => k))
  (at level 61, right associativity) : task_scope.
Local Open Scope task_scope.

(** ** The component *)

(** [arr[i]] for a possibly negative index: [undefined] out of range. *)
Definition index {A : Type} (arr : list A) (i : Z) : option A :=
  if (i <? 0)%Z then None else nth_error arr (Z.to_nat i).

Definition loadInitialData (userId : string) : Task unit :=
  update (setIsInitialLoading true) ;;;
  r <- getCustomersWithDueBalancePaginated
         {| userId := userId; pageLimit := 5; lastVisible := None |} ;;
  update (setCustomers (fun _ => customersWithDue r)) ;;;
  update (setHasMore (hasMoreResult r)) ;;;
  update (setIsInitialLoading false).

(** The [useEffect] that runs on mount (and when [userId] changes). *)
Definition mountEffect (userId : string) : Task unit :=
  if truthy userId then loadInitialData userId else Ret tt.

(** [snap] is the state of the render whose button was clicked. Reading
    [.id] of an undefined [lastCustomer] throws a TypeError, after
    [setIsLoadingMore(true)] has been issued. *)
Definition handleLoadMore (userId : string) (snap : State) : Task unit :=
  if negb (hasMore snap) || isLoadingMore snap then Ret tt
  else
    update (setIsLoadingMore true) ;;;
    match index (customers snap) (Z.of_nat (List.length (customers snap)) - 1) with
    | None => Throw TypeError
    | Some lastCustomer =>
        let cursor :=
          {| LastVisible.id := CustomerWithDue.id lastCustomer;
             LastVisible.dueBalance := CustomerWithDue.dueBalance lastCustomer |} in
        r <- getCustomersWithDueBalancePaginated
               {| userId := userId; pageLimit := 5;
                  lastVisible := Some cursor |} ;;
        update (setCustomers (fun prev => prev ++ customersWithDue r)) ;;;
        update (setHasMore (hasMoreResult r)) ;;;
        update (setIsLoadingMore false)
    end.

(** [`$${c.dueBalance.toFixed(2)}`], also the text of the table cell. *)
Definition dueAmount (c : CustomerWithDue.t) : string :=
  ("$" ++ toFixed 2 (CustomerWithDue.dueBalance c))%string.

(** One element of [body]. *)
Definition reportRow (c : CustomerWithDue.t) : JsObject :=
  [("Customer", CustomerWithDue.name c);
   ("Phone", CustomerWithDue.phone c);
   ("Due Amount", dueAmount c)].

Definition noDataToast : Toast :=
  {| variant := "destructive";
     title := "No Data";
     description := "There are no pending receivables to download." |}.

Definition letterhead (u : AuthUser.t) : list TextItem :=
  [ mkTextItem (or_else (AuthUser.companyName u) "Bookstore")
      14 20 AlignLeft 16 FontBold 0;
    mkTextItem (or_else (AuthUser.address u) "") 14 26 AlignLeft 10 FontNormal 0;
    mkTextItem (or_else (AuthUser.phone u) "") 14 32 AlignLeft 10 FontNormal 0 ]
  ++
  (let bkash := or_else (AuthUser.bkashNumber u) "" in
   let bank := or_else (AuthUser.bankInfo u) "" in
   let yAfterBkash := if truthy bkash then 26%Z else 20%Z in
   (if truthy bkash
    then [mkTextItem ("Bkash: " ++ bkash)%string 200 20 AlignRight 10 FontNormal 0]
    else []) ++
   (if truthy bank
    then [mkTextItem ("Bank: " ++ bank)%string 200 yAfterBkash AlignRight 10
            FontNormal 0]
    else [])).

Definition reportTitle (dateString : string) : list TextItem :=
  [ mkTextItem "Pending Receivables Report" 105 45 AlignCenter 14 FontBold 0;
    mkTextItem ("As of " ++ dateString)%string 105 51 AlignCenter 10
      FontNormal 100 ].

Definition reportPdf (u : AuthUser.t) (dateString : string)
  (body : list JsObject) : PdfDoc :=
  {| texts := letterhead u ++ reportTitle dateString;
     tables := [ {| startY := 60;
                    head := [["Customer"; "Phone"; "Due Amount"]];
                    tableBody := map Object_values body |} ] |}.

Definition handleDownload (userId : string) (authUser : option AuthUser.t)
  (formatType : FormatType) : Task unit :=
  allCustomersWithDue <- getCustomersWithDueBalance userId ;;
  match Nat.eqb (List.length allCustomersWithDue) 0, authUser with
  | true, _ | false, None => perform (ShowToast noDataToast)
  | false, Some u =>
      now <- newDate ;;
      let reportDate := format_yyyy_MM_dd now in
      let body := map reportRow allCustomersWithDue in
      match formatType with
      | pdf =>
          now' <- newDate ;;
          let dateString := format_PPP now' in
          perform (SaveFile ("pending-receivables-" ++ reportDate ++ ".pdf")%string
                     (PdfFile (reportPdf u dateString body)))
      | csv =>
          perform (SaveFile ("pending-receivables-" ++ reportDate ++ ".csv")%string
                     (CsvFile (Papa_unparse body)))
      end
  end.

(** *** Rendering *)

Inductive TableRow : Type :=
  | SkeletonRow (key : string)
  | CustomerRow (key href name phone amount : string)
  | EmptyRow (message : string).

Record LoadMoreButton : Type := mkLoadMoreButton {
  disabled : bool;
  label : string
}.

Record View : Type := mkView {
  rows : list TableRow;
  loadMoreButton : option LoadMoreButton
}.

Definition skeletonRows : list TableRow :=
  map (fun i => SkeletonRow ("skeleton-" ++ text (decimal (N.of_nat i)))%string)
      (seq 0 5).

Definition customerRow (c : CustomerWithDue.t) : TableRow :=
  CustomerRow (CustomerWithDue.id c)
              ("/customers/" ++ CustomerWithDue.id c)%string
              (CustomerWithDue.name c) (CustomerWithDue.phone c) (dueAmount c).

Definition render (s : State) : View :=
  {| rows :=
       if isInitialLoading s then skeletonRows
       else if (0 <? List.length (customers s))%nat
            then map customerRow (customers s)
            else [EmptyRow "No pending receivables. Great job!"];
     loadMoreButton :=
       if hasMore s
       then Some {| disabled := isLoadingMore s;
                    label := if isLoadingMore s then "Loading..."
                             else "Load More" |}
       else None |}.

(** ** Running a task against the outside world *)

(** What the data layer answers and what the clock shows. A rejected fetch
    is not modelled: the component has no handling for it. *)
Record Env : Type := mkEnv {
  paginated : PageRequest -> PageResponse;
  allDue : string -> list CustomerWithDue.t;
  today : Date
}.

Inductive Event : Type :=
  | FetchPage (req : PageRequest)
  | FetchAll (uid : string)
  | Did (e : Effect).

Inductive Outcome (A : Type) : Type :=
  | Fulfilled (a : A)
  | Rejected (err : JsError).
Arguments Fulfilled {A} a.
Arguments Rejected {A} err.

(** The first synchronous segment of a task: up to its first [await]. *)
Inductive Progress (A : Type) : Type :=
  | Settled (o : Outcome A)
  | PendingPage (req : PageRequest) (k : PageResponse -> Task A)
  | PendingAll (uid : string) (k : list CustomerWithDue.t -> Task A).
Arguments Settled {A} o.
Arguments PendingPage {A} req k.
Arguments PendingAll {A} uid k.

Record Result (R : Type) : Type := mkResult {
  outcome : R;
  final : State;
  trace : list Event
}.
Arguments mkResult {R} outcome final trace.
Arguments outcome {R} r.
Arguments final {R} r.
Arguments trace {R} r.

Definition logged {R : Type} (ev : Event) (r : Result R) : Result R :=
  {| outcome := outcome r; final := final r; trace := ev :: trace r |}.

Fixpoint advance {A : Type} (env : Env) (t : Task A) (s : State)
  : Result (Progress A) :=
  match t with
  | Ret a => mkResult (Settled (Fulfilled a)) s []
  | Throw err => mkResult (Settled (Rejected err)) s []
  | Update f k => advance env k (f s)
  | Perform e k => logged (Did e) (advance env k s)
  | NewDate k => advance env (k (today env)) s
  | AwaitPaginated req k => mkResult (PendingPage req k) s [FetchPage req]
  | AwaitAllDue uid k => mkResult (PendingAll uid k) s [FetchAll uid]
  end.

(** The whole task, every request answered by the environment at once. *)
Fixpoint run {A : Type} (env : Env) (t : Task A) (s : State)
  : Result (Outcome A) :=
  match t with
  | Ret a => mkResult (Fulfilled a) s []
  | Throw err => mkResult (Rejected err) s []
  | Update f k => run env k (f s)
  | Perform e k => logged (Did e) (run env k s)
  | NewDate k => run env (k (today env)) s
  | AwaitPaginated req k =>
      logged (FetchPage req) (run env (k (paginated env req)) s)
  | AwaitAllDue uid k =>
      logged (FetchAll uid) (run env (k (allDue env uid)) s)
  end.

(** Projections of a trace. *)
Definition fetches (tr : list Event) : list Event :=
  filter (fun ev => match ev with Did _ => false | _ => true end) tr.

Fixpoint toasts (tr : list Event) : list Toast :=
  match tr with
  | [] => []
  | Did (ShowToast t) :: tr' => t :: toasts tr'
  | _ :: tr' => toasts tr'
  end.

Fixpoint files (tr : list Event) : list (string * Artifact) :=
  match tr with
  | [] => []
  | Did (SaveFile f a) :: tr' => (f, a) :: files tr'
  | _ :: tr' => files tr'
  end.

(** ** Vocabulary of the statements *)

(** The numbers [toFixed] prints in fixed-point notation: finite and of
    magnitude below 10^21. *)
Definition prints_fixed (x : number) : bool :=
  match x with
  | S754_zero _ => true
  | S754_finite _ m e => negb (mag_ge m e (10 ^ 21))
  | _ => false
  end.

(** Sample values: 12.5 and 0.1 as binary64, a signed-in shop, a data
    layer holding two customers. *)
Definition alice : CustomerWithDue.t :=
  CustomerWithDue.mk "c1" "Alice" "0171"
    (S754_finite false 7036874417766400 (-49)).

Definition bob : CustomerWithDue.t :=
  CustomerWithDue.mk "c2" "Bob" "0182" (S754_finite false 7205759403792794 (-56)).

(** A customer who owes 10^21, and one whose balance is not a number. *)
Definition carol : CustomerWithDue.t :=
  CustomerWithDue.mk "c3" "Carol" "0193"
    (S754_finite false 7629394531250000 17).

Definition dave : CustomerWithDue.t :=
  CustomerWithDue.mk "c4" "Dave" "0204" S754_nan.

(** A data layer holding those two customers. *)
Definition env_huge : Env :=
  mkEnv (fun _ => mkPageResponse [] false) (fun _ => [carol; dave])
        (mkDate 2026 11 1).

Definition shop : AuthUser.t :=
  AuthUser.mk (Some "Shop") None None (Some "0123") None.

Definition env_two : Env :=
  mkEnv (fun _ => mkPageResponse [bob] false)
        (fun _ => [alice; bob])
        (mkDate 2026 11 1).

(** The state after pages have been loaded. *)
Definition loaded (cs : list CustomerWithDue.t) (more : bool) : State :=
  {| customers := cs; hasMore := more;
     isInitialLoading := false; isLoadingMore := false |}.

(** The cursor and the requests the statements refer to. *)
Definition cursorOf (c : CustomerWithDue.t) : LastVisible.t :=
  {| LastVisible.id := CustomerWithDue.id c;
     LastVisible.dueBalance := CustomerWithDue.dueBalance c |}.

Definition nextPageRequest (uid : string) (c : CustomerWithDue.t) : PageRequest :=
  {| userId := uid; pageLimit := 5; lastVisible := Some (cursorOf c) |}.

Definition firstPageRequest (uid : string) : PageRequest :=
  {| userId := uid; pageLimit := 5; lastVisible := None |}.

(** Tasks that contain no state update. *)
Inductive Stateless {A : Type} : Task A -> Prop :=
  | Stateless_Ret (a : A) : Stateless (Ret a)
  | Stateless_Throw (err : JsError) : Stateless (Throw err)
  | Stateless_Perform (e : Effect) (k : Task A) :
      Stateless k -> Stateless (Perform e k)
  | Stateless_NewDate (k : Date -> Task A) :
      (forall d, Stateless (k d)) -> Stateless (NewDate k)
  | Stateless_AwaitPaginated (req : PageRequest) (k : PageResponse -> Task A) :
      (forall r, Stateless (k r)) -> Stateless (AwaitPaginated req k)
  | Stateless_AwaitAllDue (uid : string) (k : list CustomerWithDue.t -> Task A) :
      (forall r, Stateless (k r)) -> Stateless (AwaitAllDue uid k).

#[local] Hint Constructors Stateless : core.

(** The download names for a report date. *)
Definition pdfName (d : Date) : string :=
  ("pending-receivables-" ++ format_yyyy_MM_dd d ++ ".pdf")%string.
Definition csvName (d : Date) : string :=
  ("pending-receivables-" ++ format_yyyy_MM_dd d ++ ".csv")%string.

(** The body rows of the tables of a PDF, or the data records of a CSV. *)
Definition artifactRows (a : Artifact) : list (list string) :=
  match a with
  | PdfFile doc => List.concat (map tableBody (tables doc))
  | CsvFile c => csvData c
  end.

Definition exportedRows (tr : list Event) : list (list (list string)) :=
  map (fun fa => artifactRows (snd fa)) (files tr).

(** The cells of one report row as the code computes them:
    [Object.values] of the row object. *)
Definition reportCells (c : CustomerWithDue.t) : list string :=
  [CustomerWithDue.name c; CustomerWithDue.phone c;
   ("$" ++ toFixed 2 (CustomerWithDue.dueBalance c))%string].

(** *** A report row as the specification words it

    "Due balance with two decimals" is stated without [toFixed]: the
    amount reads as an optional minus sign, digits, a point and two digits,
    and the number of hundredths it denotes is a nearest one to the
    balance. *)

(** A digit string read as a decimal numeral. *)
Definition read_digits (cs : list ascii) : option N :=
  match NilEmpty.uint_of_string (text cs) with
  | Some d => Some (N.of_uint d)
  | None => None
  end.

(** An amount read as a sign and a whole number of hundredths. *)
Definition read_hundredths (s : string) : option (bool * N) :=
  let cs := chars s in
  let negative :=
    match cs with
    | c :: _ => Ascii.eqb c "-"
    | [] => false
    end in
  let unsigned := if negative then tl cs else cs in
  match rev unsigned with
  | d2 :: d1 :: "."%char :: ip =>
      if forallb is_digit (d2 :: d1 :: ip) && negb (Nat.eqb (List.length ip) 0)
      then match read_digits (rev ip ++ [d1; d2]) with
           | Some n => Some (negative, n)
           | None => None
           end
      else None
  | _ => None
  end.

(** [n] hundredths is within half a hundredth of [m * 2^e]; both sides are
    scaled by a power of two that clears the denominators. *)
Definition nearest_hundredth (m : positive) (e : Z) (n : N) : Prop :=
  let k := Z.max 0 (- e) in
  let j := Z.max 0 e in
  (Z.abs (2 ^ (k + 1) * Z.of_N n - 200 * Z.pos m * 2 ^ j) <= 2 ^ k)%Z.

Definition shows_with_two_decimals (x : number) (amount : string) : Prop :=
  match x with
  | S754_zero _ => read_hundredths amount = Some (false, 0%N)
  | S754_finite negative m e =>
      exists n, read_hundredths amount = Some (negative, n) /\
                nearest_hundredth m e n
  | _ => False
  end.

Definition spec_report_row (c : CustomerWithDue.t) (row : list string) : Prop :=
  exists amount,
    row = [CustomerWithDue.name c; CustomerWithDue.phone c;
           String "$" amount] /\
    shows_with_two_decimals (CustomerWithDue.dueBalance c) amount.

(** Can "load more" be triggered: is its button rendered and enabled? *)
Definition loadMoreClickable (s : State) : bool :=
  match loadMoreButton (render s) with
  | Some button => negb (disabled button)
  | None => false
  end.

(** How a handler ends when the request it awaits is rejected. The
    component has no [try]/[catch]: nothing after the [await] runs, so the
    state and the trace are those of the synchronous segment. *)
Inductive Ending (A : Type) : Type :=
  | Ended (o : Outcome A)
  | FetchRejected.
Arguments Ended {A} o.
Arguments FetchRejected {A}.

Definition whenFetchRejected {A : Type} (env : Env) (t : Task A) (s : State)
  : Result (Ending A) :=
  let r := advance env t s in
  {| outcome :=
       match outcome r with
       | Settled o => Ended o
       | PendingPage _ _ | PendingAll _ _ => FetchRejected
       end;
     final := final r;
     trace := trace r |}.

(** A data layer with two pages: the first page holds two customers and
    announces more, every later page holds one customer and is the last. *)
Definition env_pages : Env :=
  mkEnv (fun req => match lastVisible req with
                    | None => mkPageResponse [alice; bob] true
                    | Some _ => mkPageResponse [carol] false
                    end)
        (fun _ => [alice; bob; carol])
        (mkDate 2026 11 1).

(** A signed-in user with no profile field filled in, and one with every
    field filled in. *)
Definition blank_user : AuthUser.t :=
  AuthUser.mk None (Some "") None None None.

Definition full_user : AuthUser.t :=
  AuthUser.mk (Some "Shop") (Some "1 Main St") (Some "555")
              (Some "0123") (Some "Bank X").

(** The state in which a first page has arrived. *)
Definition afterInitialLoad (page : PageResponse) (s : State) : State :=
  {| customers := customersWithDue page;
     hasMore := hasMoreResult page;
     isInitialLoading := false;
     isLoadingMore := isLoadingMore s |}.

(** What the user can do on the mounted view; each action is run to
    completion against the state of the render it was triggered in. *)
Inductive Action : Type :=
  | ClickLoadMore
  | ClickDownload (formatType : FormatType).

Definition handlerOf (uid : string) (auth : option AuthUser.t) (a : Action)
  (snap : State) : Task unit :=
  match a with
  | ClickLoadMore => handleLoadMore uid snap
  | ClickDownload formatType => handleDownload uid auth formatType
  end.

Definition act (env : Env) (uid : string) (auth : option AuthUser.t)
  (s : State) (a : Action) : State :=
  final (run env (handlerOf uid auth a s) s).

Definition session (env : Env) (uid : string) (auth : option AuthUser.t)
  (actions : list Action) (s : State) : State :=
  fold_left (act env uid auth) actions s.

(** Where a text item is anchored on the page. *)
Definition anchor (t : TextItem) : Z * Z := (xPos t, yPos t).

Definition rightAligned (t : TextItem) : bool :=
  match align t with
  | AlignRight => true
  | _ => false
  end.

(** Is a profile field filled in (neither missing nor empty)? *)
Definition filled (v : option string) : bool := truthy (or_else v "").

(** * Properties *)

(** ** Digits and fixed-point notation *)

Section Digits.

Lemma chars_text (cs : list ascii) : chars (text cs) = cs.
Proof. apply list_ascii_of_string_of_list_ascii. Qed.

Lemma uint_digits (d : Decimal.uint) :
  forallb is_digit (chars (NilEmpty.string_of_uint d)) = true.
Proof. induction d; simpl; auto. Qed.

Lemma decimal_digits (n : N) : forallb is_digit (decimal n) = true.
Proof.
  unfold decimal, NilZero.string_of_uint.
  destruct (N.to_uint n); try apply uint_digits. reflexivity.
Qed.

Lemma zeros_digits (k : nat) : forallb is_digit (zeros k) = true.
Proof. induction k; simpl; auto. Qed.

Lemma zeros_length (k : nat) : List.length (zeros k) = k.
Proof. induction k; simpl; auto. Qed.

Lemma pad_left_digits (w : nat) (cs : list ascii) :
  forallb is_digit cs = true -> forallb is_digit (pad_left w cs) = true.
Proof.
  intros H. unfold pad_left. rewrite forallb_app, zeros_digits, H. reflexivity.
Qed.

Lemma pad_left_length (w : nat) (cs : list ascii) :
  List.length (pad_left w cs) = Nat.max w (List.length cs).
Proof. unfold pad_left. rewrite length_app, zeros_length. lia. Qed.

Lemma forallb_rev' {A : Type} (f : A -> bool) (l : list A) :
  forallb f (rev l) = forallb f l.
Proof.
  induction l as [|a l IH]; simpl; [reflexivity|].
  rewrite forallb_app, IH. simpl. rewrite andb_true_r. apply andb_comm.
Qed.

(** A digit is not the minus sign. *)
Lemma digit_not_minus (c : ascii) : is_digit c = true -> Ascii.eqb c "-" = false.
Proof.
  intros H. destruct (Ascii.eqb_spec c "-") as [->|]; [discriminate H | reflexivity].
Qed.

(** The digits of [toFixed(2)]: integer part, point, two digits. *)
Lemma fixed_digits_2_shape (n : Z) :
  exists ip d1 d2,
    fixed_digits 2 n = ip ++ ["."%char; d1; d2] /\
    (1 <= List.length ip)%nat /\ forallb is_digit ip = true /\
    is_digit d1 = true /\ is_digit d2 = true.
Proof.
  unfold fixed_digits.
  set (m := pad_left 3 (decimal (Z.to_N n))).
  assert (Hd : forallb is_digit m = true)
    by (apply pad_left_digits, decimal_digits).
  assert (Hl : (3 <= List.length m)%nat)
    by (unfold m; rewrite pad_left_length; lia).
  rewrite <- (firstn_skipn (List.length m - 2) m) in Hd.
  rewrite forallb_app in Hd. apply andb_true_iff in Hd as [Hip Hfr].
  assert (Hfl : List.length (skipn (List.length m - 2) m) = 2%nat)
    by (rewrite length_skipn; lia).
  destruct (skipn (List.length m - 2) m) as [|d1 [|d2 [|? ?]]] eqn:E;
    try discriminate Hfl.
  exists (firstn (List.length m - 2) m), d1, d2.
  simpl in Hfr. apply andb_true_iff in Hfr as [H1 Hfr].
  apply andb_true_iff in Hfr as [H2 _].
  repeat split; auto.
  rewrite length_firstn. lia.
Qed.

Lemma two_decimal_places_unsigned (ip : list ascii) (d1 d2 : ascii) :
  (1 <= List.length ip)%nat -> forallb is_digit ip = true ->
  is_digit d1 = true -> is_digit d2 = true ->
  two_decimal_places (text (ip ++ ["."%char; d1; d2])) = true.
Proof.
  intros Hl Hip H1 H2. unfold two_decimal_places. rewrite chars_text.
  destruct ip as [|c ip']; [simpl in Hl; lia|].
  assert (Hc : is_digit c = true) by (simpl in Hip; apply andb_true_iff in Hip; tauto).
  change ((c :: ip') ++ ["."%char; d1; d2]) with (c :: (ip' ++ ["."%char; d1; d2])).
  cbv iota beta. rewrite (digit_not_minus c Hc).
  change (c :: (ip' ++ ["."%char; d1; d2])) with ((c :: ip') ++ ["."%char; d1; d2]).
  rewrite rev_app_distr. simpl rev at 1. cbn [app].
  rewrite H1, H2, forallb_rev', Hip, length_rev. reflexivity.
Qed.

Lemma two_decimal_places_signed (ip : list ascii) (d1 d2 : ascii) :
  (1 <= List.length ip)%nat -> forallb is_digit ip = true ->
  is_digit d1 = true -> is_digit d2 = true ->
  two_decimal_places (text ("-"%char :: ip ++ ["."%char; d1; d2])) = true.
Proof.
  intros Hl Hip H1 H2. unfold two_decimal_places. rewrite chars_text.
  cbv iota beta. rewrite Ascii.eqb_refl.
  rewrite rev_app_distr. simpl rev at 1. cbn [app].
  rewrite H1, H2, forallb_rev', Hip, length_rev.
  destruct ip; [simpl in Hl; lia | reflexivity].
Qed.

End Digits.

Lemma toFixed_2_two_decimal_places (x : number) :
  prints_fixed x = true -> two_decimal_places (toFixed 2 x) = true.
Proof.
  destruct x as [s | s | | s m e]; cbn [toFixed prints_fixed];
    try discriminate; intros H.
  - destruct (fixed_digits_2_shape 0) as (ip & d1 & d2 & -> & ? & ? & ? & ?).
    now apply two_decimal_places_unsigned.
  - apply negb_true_iff in H. rewrite H.
    destruct (fixed_digits_2_shape (nearest_scaled 2 m e))
      as (ip & d1 & d2 & -> & ? & ? & ? & ?).
    destruct s; cbn [app].
    + now apply two_decimal_places_signed.
    + now apply two_decimal_places_unsigned.
Qed.

(** The value [toFixed] prints is the nearest multiple of [10^-f], the
    larger one on a tie: for a negative exponent,
    [x * 10^f - 1/2 < n <= x * 10^f + 1/2], scaled by [2^(1-e)]. *)
Lemma nearest_scaled_nearest (f : nat) (m : positive) (e : Z) :
  (e < 0)%Z ->
  let n := nearest_scaled f m e in
  let y2 := (2 * 10 ^ Z.of_nat f * Z.pos m)%Z in
  (y2 - 2 ^ (- e) < 2 ^ (1 - e) * n <= y2 + 2 ^ (- e))%Z.
Proof.
  intros He n y2. unfold n, nearest_scaled.
  destruct (Z.leb_spec 0 e) as [|_]; [lia|]. fold y2.
  assert (Hp : (0 < 2 ^ (- e))%Z) by (apply Z.pow_pos_nonneg; lia).
  replace (1 - e)%Z with (Z.succ (- e)) by lia.
  rewrite Z.pow_succ_r by lia.
  set (d := (2 * 2 ^ (- e))%Z).
  assert (Hd : (0 < d)%Z) by (unfold d; lia).
  pose proof (Z.mul_div_le (y2 + 2 ^ (- e)) d Hd).
  pose proof (Z.mul_succ_div_gt (y2 + 2 ^ (- e)) d Hd).
  unfold d in *. lia.
Qed.

(** ** Examples *)

Example toFixed_12_5 : dueAmount alice = "$12.50".
Proof. reflexivity. Qed.

Example toFixed_0_1 : dueAmount bob = "$0.10".
Proof. reflexivity. Qed.

(** 1.005 is stored slightly below 1.005. *)
Example toFixed_1_005 :
  toFixed 2 (S754_finite false 4526108641832468 (-52)) = "1.00".
Proof. reflexivity. Qed.

(** 0.625 lies halfway between 0.62 and 0.63. *)
Example toFixed_tie_up :
  toFixed 2 (S754_finite false 5629499534213120 (-53)) = "0.63".
Proof. reflexivity. Qed.

Example toFixed_negative_small :
  toFixed 2 (S754_finite true 4503599627370496 (-62)) = "-0.00".
Proof. reflexivity. Qed.

Example toFixed_negative_zero : toFixed 2 (S754_zero true) = "0.00".
Proof. reflexivity. Qed.

Example toFixed_below_1e21 :
  toFixed 2 (S754_finite false 7629394531249999 17) =
    "999999999999999868928.00".
Proof. vm_compute. reflexivity. Qed.

Example toFixed_1e21 : dueAmount carol = "$1e+21".
Proof. vm_compute. reflexivity. Qed.

Example toFixed_1_5e21 :
  toFixed 2 (S754_finite false 5722045898437500 18) = "1.5e+21".
Proof. vm_compute. reflexivity. Qed.

Example toFixed_2_pow_70 :
  toFixed 2 (S754_finite false 4503599627370496 18) =
    "1.1805916207174113e+21".
Proof. vm_compute. reflexivity. Qed.

Example format_today :
  format_yyyy_MM_dd (mkDate 2026 11 1) = "2026-11-01" /\
  format_PPP (mkDate 2026 11 1) = "November 1st, 2026".
Proof. split; reflexivity. Qed.

(** Year 0 is 1 BC and 43 BC is year -42: ['yyyy'] prints the year of the
    era. *)
Example format_year_of_era :
  format_yyyy_MM_dd (mkDate 0 11 1) = "0001-11-01" /\
  format_yyyy_MM_dd (mkDate (-42) 3 15) = "0043-03-15" /\
  format_yyyy_MM_dd (mkDate 12345 1 2) = "12345-01-02".
Proof. repeat split. Qed.

Example toFixed_infinity : toFixed 2 (S754_infinity false) = "Infinity".
Proof. reflexivity. Qed.

Example sample_balances_binary64 :
  forallb is_binary64
    [CustomerWithDue.dueBalance alice; CustomerWithDue.dueBalance bob;
     CustomerWithDue.dueBalance carol; CustomerWithDue.dueBalance dave;
     S754_finite false 4526108641832468 (-52);
     S754_finite false 5629499534213120 (-53);
     S754_finite false 7629394531249999 17] = true.
Proof. vm_compute. reflexivity. Qed.

Lemma prints_fixed_finite (x : number) :
  prints_fixed x = true -> is_finite x = true.
Proof. destruct x; cbn; intros H; congruence. Qed.

(** ** Load more *)

Lemma index_last {A : Type} (init : list A) (c : A) :
  index (init ++ [c]) (Z.of_nat (List.length (init ++ [c])) - 1) = Some c.
Proof.
  unfold index. rewrite length_app. simpl List.length.
  destruct (Z.ltb_spec (Z.of_nat (List.length init + 1) - 1) 0); [lia|].
  replace (Z.to_nat (Z.of_nat (List.length init + 1) - 1)) with (List.length init) by lia.
  rewrite nth_error_app2 by lia. now rewrite Nat.sub_diag.
Qed.

Lemma guard_open (s : State) :
  hasMore s = true -> isLoadingMore s = false ->
  negb (hasMore s) || isLoadingMore s = false.
Proof. intros -> ->. reflexivity. Qed.

Lemma guard_closed (s : State) :
  hasMore s = false \/ isLoadingMore s = true ->
  negb (hasMore s) || isLoadingMore s = true.
Proof. intros [-> | ->]; [reflexivity | apply orb_true_r]. Qed.

(** The task of a click that passes the guard on a non-empty list. *)
Lemma handleLoadMore_open (uid : string) (s : State)
  (init : list CustomerWithDue.t) (c : CustomerWithDue.t) :
  hasMore s = true -> isLoadingMore s = false ->
  customers s = init ++ [c] ->
  handleLoadMore uid s =
    Update (setIsLoadingMore true)
      (AwaitPaginated (nextPageRequest uid c) (fun r =>
         Update (setCustomers (fun prev => prev ++ customersWithDue r))
           (Update (setHasMore (hasMoreResult r))
              (Update (setIsLoadingMore false) (Ret tt))))).
Proof.
  intros Hm Hl Hc. unfold handleLoadMore.
  rewrite (guard_open s Hm Hl), Hc, index_last. reflexivity.
Qed.

Lemma handleLoadMore_empty (uid : string) (s : State) :
  hasMore s = true -> isLoadingMore s = false -> customers s = [] ->
  handleLoadMore uid s = Update (setIsLoadingMore true) (Throw TypeError).
Proof.
  intros Hm Hl Hc. unfold handleLoadMore.
  rewrite (guard_open s Hm Hl), Hc. reflexivity.
Qed.

Lemma handleLoadMore_closed (uid : string) (s : State) :
  hasMore s = false \/ isLoadingMore s = true ->
  handleLoadMore uid s = Ret tt.
Proof.
  intros H. unfold handleLoadMore. now rewrite (guard_closed s H).
Qed.

Lemma nonempty_last {A : Type} (l : list A) :
  l <> [] -> exists init c, l = init ++ [c].
Proof.
  intros H. destruct (exists_last H) as (init & c & ->). now exists init, c.
Qed.

Lemma loadMoreClickable_guard (s : State) :
  loadMoreClickable s = true <-> hasMore s = true /\ isLoadingMore s = false.
Proof.
  unfold loadMoreClickable, render. cbn [loadMoreButton].
  destruct (hasMore s); cbn; [|split; [discriminate | intros [H _]; discriminate H]].
  destruct (isLoadingMore s); cbn; split; try discriminate; auto.
  intros [_ H]; discriminate H.
Qed.

(** C2: in every state whose customer list is non-empty, triggering "load
    more" (the handler's only caller is the button, which can be clicked
    where it is rendered and enabled) issues exactly one paginated fetch,
    for page size 5, whose cursor holds exactly the id and due balance of
    the last customer of the current list. *)
Theorem load_more_cursor_is_last_customer (env : Env) (uid : string) (s : State) :
  customers s <> [] -> loadMoreClickable s = true ->
  exists init lastCustomer k,
    customers s = init ++ [lastCustomer] /\
    advance env (handleLoadMore uid s) s =
      mkResult (PendingPage (nextPageRequest uid lastCustomer) k)
               (setIsLoadingMore true s)
               [FetchPage (nextPageRequest uid lastCustomer)] /\
    fetches (trace (run env (handleLoadMore uid s) s)) =
      [FetchPage (nextPageRequest uid lastCustomer)] /\
    LastVisible.id (cursorOf lastCustomer) = CustomerWithDue.id lastCustomer /\
    LastVisible.dueBalance (cursorOf lastCustomer) =
      CustomerWithDue.dueBalance lastCustomer.
Proof.
  intros Hne Hclick.
  apply loadMoreClickable_guard in Hclick as [Hm Hl].
  destruct (nonempty_last _ Hne) as (init & c & Hc).
  exists init, c. eexists. split; [exact Hc|].
  rewrite (handleLoadMore_open uid s init c Hm Hl Hc).
  repeat split; reflexivity.
Qed.

Lemma load_more_cursor_is_last_customer_witness :
  let s := loaded [alice; bob] true in
  (customers s <> [] /\ loadMoreClickable s = true) /\
  exists init k,
    customers s = init ++ [bob] /\
    advance env_two (handleLoadMore "u1" s) s =
      mkResult (PendingPage (nextPageRequest "u1" bob) k)
               (setIsLoadingMore true s)
               [FetchPage (nextPageRequest "u1" bob)] /\
    fetches (trace (run env_two (handleLoadMore "u1" s) s)) =
      [FetchPage
         {| userId := "u1"; pageLimit := 5;
            lastVisible :=
              Some {| LastVisible.id := "c2";
                      LastVisible.dueBalance :=
                        S754_finite false 7205759403792794 (-56) |} |}].
Proof.
  intros s. split.
  - split; [discriminate | reflexivity].
  - destruct (load_more_cursor_is_last_customer env_two "u1" s)
      as (init & c & k & Hc & Ha & Hf & _);
      [discriminate | reflexivity |].
    assert (E : c = bob).
    { apply (f_equal (fun l => last l alice)) in Hc.
      rewrite last_last in Hc. symmetry. exact Hc. }
    subst c. exists init, k. split; [exact Hc | split; [exact Ha | exact Hf]].
Defined.

(** C3: when [hasMore] is false or a load-more is already in flight, a click
    on "load more" returns at once: no fetch, no effect, and the customer
    list, [hasMore] and both loading flags are what they were. *)
Theorem load_more_guarded_noop (env : Env) (uid : string) (s : State) :
  hasMore s = false \/ isLoadingMore s = true ->
  run env (handleLoadMore uid s) s = mkResult (Fulfilled tt) s [] /\
  advance env (handleLoadMore uid s) s = mkResult (Settled (Fulfilled tt)) s [].
Proof.
  intros H. rewrite (handleLoadMore_closed uid s H). split; reflexivity.
Qed.

Lemma load_more_guarded_noop_witness :
  let s := setIsLoadingMore true (loaded [alice] true) in
  (hasMore s = false \/ isLoadingMore s = true) /\
  run env_two (handleLoadMore "u1" s) s = mkResult (Fulfilled tt) s [] /\
  advance env_two (handleLoadMore "u1" s) s =
    mkResult (Settled (Fulfilled tt)) s [].
Proof.
  intros s. split.
  - right. reflexivity.
  - apply (load_more_guarded_noop env_two "u1" s). right. reflexivity.
Defined.

(** C4: when the page of a "load more" fetch arrives, whatever the customer
    list is at that moment, the new list is that list followed by the
    page's customers in order; every customer keeps its position. The same
    holds from click to completion. *)
Theorem load_more_appends (env : Env) (uid : string) (snap : State)
  (req : PageRequest) (k : PageResponse -> Task unit) :
  outcome (advance env (handleLoadMore uid snap) snap) = PendingPage req k ->
  (forall (s : State) (page : PageResponse),
      let s' := final (advance env (k page) s) in
      customers s' = customers s ++ customersWithDue page /\
      (forall i c, nth_error (customers s) i = Some c ->
                   nth_error (customers s') i = Some c) /\
      outcome (advance env (k page) s) = Settled (Fulfilled tt)) /\
  customers (final (run env (handleLoadMore uid snap) snap)) =
    customers snap ++ customersWithDue (paginated env req).
Proof.
  intros H.
  destruct (hasMore snap) eqn:Hm.
  2:{ rewrite (handleLoadMore_closed uid snap) in H by (now left). discriminate H. }
  destruct (isLoadingMore snap) eqn:Hl.
  1:{ rewrite (handleLoadMore_closed uid snap) in H by (now right). discriminate H. }
  destruct (customers snap) as [|c0 cs0] eqn:Hc.
  1:{ rewrite (handleLoadMore_empty uid snap Hm Hl Hc) in H. discriminate H. }
  destruct (nonempty_last (c0 :: cs0)) as (init & c & Hlast); [discriminate|].
  rewrite <- Hc in Hlast.
  rewrite (handleLoadMore_open uid snap init c Hm Hl Hlast) in H |- *.
  cbn in H. injection H as <- <-.
  split.
  - intros s page. cbn. repeat split.
    intros i c' Hi. rewrite nth_error_app1; [exact Hi|].
    apply nth_error_Some. congruence.
  - cbn. now rewrite Hc.
Qed.

Lemma load_more_appends_witness :
  let snap := loaded [alice] true in
  exists req k,
    outcome (advance env_two (handleLoadMore "u1" snap) snap) = PendingPage req k /\
    (forall (s : State) (page : PageResponse),
        let s' := final (advance env_two (k page) s) in
        customers s' = customers s ++ customersWithDue page /\
        (forall i c, nth_error (customers s) i = Some c ->
                     nth_error (customers s') i = Some c) /\
        outcome (advance env_two (k page) s) = Settled (Fulfilled tt)) /\
    customers (final (run env_two (handleLoadMore "u1" snap) snap)) =
      customers snap ++ customersWithDue (paginated env_two req).
Proof.
  intros snap. eexists. eexists. split.
  - reflexivity.
  - apply (load_more_appends env_two "u1" snap). reflexivity.
Defined.

(** C5: a click that passes the guard ([hasMore] true, no load-more in
    flight) finds the button enabled and reads the last element of the list
    without checking for emptiness. On an empty list (as in the initial
    state, while the first page is pending) building the cursor throws a
    TypeError: no fetch is issued and [isLoadingMore] stays set. The click
    completes exactly when the list is non-empty. *)
Theorem load_more_requires_nonempty (env : Env) (uid : string) (s : State) :
  hasMore s = true -> isLoadingMore s = false ->
  loadMoreButton (render s) =
    Some {| disabled := false; label := "Load More" |} /\
  (customers s = [] <->
   outcome (run env (handleLoadMore uid s) s) = Rejected TypeError) /\
  (customers s <> [] <->
   outcome (run env (handleLoadMore uid s) s) = Fulfilled tt) /\
  (customers s = [] ->
   run env (handleLoadMore uid s) s =
     mkResult (Rejected TypeError) (setIsLoadingMore true s) []).
Proof.
  intros Hm Hl. split.
  { unfold render. cbn. now rewrite Hm, Hl. }
  destruct (customers s) as [|c0 cs0] eqn:Hc.
  - rewrite (handleLoadMore_empty uid s Hm Hl Hc). cbn.
    repeat split; try reflexivity; try congruence.
  - destruct (nonempty_last (c0 :: cs0)) as (init & c & Hlast); [discriminate|].
    rewrite <- Hc in Hlast.
    rewrite (handleLoadMore_open uid s init c Hm Hl Hlast). cbn.
    repeat split; try reflexivity; try discriminate.
Qed.

Lemma load_more_requires_nonempty_witness :
  (hasMore initialState = true /\ isLoadingMore initialState = false /\
   isInitialLoading initialState = true /\ customers initialState = []) /\
  run env_two (handleLoadMore "u1" initialState) initialState =
    mkResult (Rejected TypeError) (setIsLoadingMore true initialState) [].
Proof.
  split.
  - repeat split.
  - apply (load_more_requires_nonempty env_two "u1" initialState);
      reflexivity.
Defined.

(** ** Initial load *)

Lemma truthy_nonempty (s : string) : s <> "" -> truthy s = true.
Proof. destruct s; [congruence | reflexivity]. Qed.

(** C7: for a non-empty user identifier the mount effect issues exactly one
    paginated fetch, for the first page (no cursor) with page size 5; while
    it is pending [isInitialLoading] is set and the table body is exactly 5
    skeleton rows, as many as the page size. *)
Theorem initial_load_first_page_and_skeletons (env : Env) (uid : string) (s : State) :
  uid <> "" ->
  exists k,
    advance env (mountEffect uid) s =
      mkResult (PendingPage (firstPageRequest uid) k)
               (setIsInitialLoading true s)
               [FetchPage (firstPageRequest uid)] /\
    fetches (trace (run env (mountEffect uid) s)) =
      [FetchPage (firstPageRequest uid)] /\
    pageLimit (firstPageRequest uid) = 5%N /\
    lastVisible (firstPageRequest uid) = None /\
    rows (render (final (advance env (mountEffect uid) s))) =
      [SkeletonRow "skeleton-0"; SkeletonRow "skeleton-1";
       SkeletonRow "skeleton-2"; SkeletonRow "skeleton-3";
       SkeletonRow "skeleton-4"] /\
    List.length (rows (render (final (advance env (mountEffect uid) s)))) =
      N.to_nat (pageLimit (firstPageRequest uid)).
Proof.
  intros Hu. unfold mountEffect. rewrite (truthy_nonempty uid Hu).
  eexists. repeat split.
Qed.

Lemma initial_load_first_page_and_skeletons_witness :
  "u1" <> "" /\
  exists k,
    advance env_two (mountEffect "u1") initialState =
      mkResult (PendingPage (firstPageRequest "u1") k)
               (setIsInitialLoading true initialState)
               [FetchPage (firstPageRequest "u1")] /\
    fetches (trace (run env_two (mountEffect "u1") initialState)) =
      [FetchPage (firstPageRequest "u1")] /\
    pageLimit (firstPageRequest "u1") = 5%N /\
    lastVisible (firstPageRequest "u1") = None /\
    rows (render (final (advance env_two (mountEffect "u1") initialState))) =
      [SkeletonRow "skeleton-0"; SkeletonRow "skeleton-1";
       SkeletonRow "skeleton-2"; SkeletonRow "skeleton-3";
       SkeletonRow "skeleton-4"] /\
    List.length
      (rows (render (final (advance env_two (mountEffect "u1") initialState)))) =
      N.to_nat (pageLimit (firstPageRequest "u1")).
Proof.
  split.
  - discriminate.
  - apply (initial_load_first_page_and_skeletons env_two "u1" initialState).
    discriminate.
Defined.

Lemma skeletons_while_initial_loading (s : State) :
  isInitialLoading s = true ->
  rows (render s) = skeletonRows /\ List.length (rows (render s)) = 5%nat.
Proof. intros H. unfold render. cbn [rows]. rewrite H. split; reflexivity. Qed.

(** The three shapes of a "load more" click. *)
Lemma handleLoadMore_cases (uid : string) (snap : State) :
  handleLoadMore uid snap = Ret tt \/
  handleLoadMore uid snap = Update (setIsLoadingMore true) (Throw TypeError) \/
  exists c,
    handleLoadMore uid snap =
      Update (setIsLoadingMore true)
        (AwaitPaginated (nextPageRequest uid c) (fun r =>
           Update (setCustomers (fun prev => prev ++ customersWithDue r))
             (Update (setHasMore (hasMoreResult r))
                (Update (setIsLoadingMore false) (Ret tt))))).
Proof.
  destruct (hasMore snap) eqn:Hm.
  2:{ left. apply handleLoadMore_closed. now left. }
  destruct (isLoadingMore snap) eqn:Hl.
  1:{ left. apply handleLoadMore_closed. now right. }
  destruct (customers snap) as [|c0 cs0] eqn:Hc.
  - right; left. now apply handleLoadMore_empty.
  - right; right.
    destruct (nonempty_last (c0 :: cs0)) as (init & c & Hlast); [discriminate|].
    rewrite <- Hc in Hlast. exists c. now apply (handleLoadMore_open uid snap init c).
Qed.

(** A click on "load more" never touches [isInitialLoading]: the skeleton
    rows of a pending initial load stay. *)
Lemma load_more_keeps_initial_flag (env : Env) (uid : string) (snap s : State) :
  isInitialLoading (final (run env (handleLoadMore uid snap) s)) =
  isInitialLoading s.
Proof.
  destruct (handleLoadMore_cases uid snap) as [-> | [-> | [c ->]]]; reflexivity.
Qed.

(** ** Report export *)

Lemma stateless_bind {A B : Type} (t : Task A) (g : A -> Task B) :
  Stateless t -> (forall a, Stateless (g a)) -> Stateless (bind t g).
Proof. intros Ht Hg. induction Ht; cbn; auto. Qed.

Lemma stateless_run {A : Type} (env : Env) (t : Task A) :
  Stateless t -> forall s, final (run env t s) = s.
Proof. intros Ht. induction Ht; intros s; cbn; auto. Qed.

Lemma stateless_advance {A : Type} (env : Env) (t : Task A) :
  Stateless t -> forall s, final (advance env t s) = s.
Proof. intros Ht. induction Ht; intros s; cbn; auto. Qed.

Lemma handleDownload_stateless (uid : string) (auth : option AuthUser.t)
  (fmt : FormatType) : Stateless (handleDownload uid auth fmt).
Proof.
  unfold handleDownload, getCustomersWithDueBalance, newDate, perform.
  apply stateless_bind; [auto|]. intros all.
  destruct (Nat.eqb (List.length all) 0), auth as [u|]; cbn [bind]; auto.
  constructor. intros d. destruct fmt; cbn [bind]; auto.
Qed.

Lemma length_zero_nil {A : Type} (l : list A) :
  Nat.eqb (List.length l) 0 = true <-> l = [].
Proof. destruct l; cbn; split; congruence. Qed.

Lemma run_handleDownload_no_data (env : Env) (uid : string)
  (auth : option AuthUser.t) (fmt : FormatType) (s : State) :
  allDue env uid = [] \/ auth = None ->
  run env (handleDownload uid auth fmt) s =
    mkResult (Fulfilled tt) s [FetchAll uid; Did (ShowToast noDataToast)].
Proof.
  intros H. unfold handleDownload, getCustomersWithDueBalance. cbn [bind run].
  destruct H as [-> | ->]; [reflexivity|].
  destruct (Nat.eqb (List.length (allDue env uid)) 0); reflexivity.
Qed.

Lemma run_handleDownload_pdf (env : Env) (uid : string) (u : AuthUser.t)
  (s : State) :
  allDue env uid <> [] ->
  run env (handleDownload uid (Some u) pdf) s =
    mkResult (Fulfilled tt) s
      [FetchAll uid;
       Did (SaveFile (pdfName (today env))
              (PdfFile (reportPdf u (format_PPP (today env))
                          (map reportRow (allDue env uid)))))].
Proof.
  intros H. unfold handleDownload, getCustomersWithDueBalance. cbn [bind run].
  destruct (Nat.eqb (List.length (allDue env uid)) 0) eqn:E.
  - apply length_zero_nil in E. contradiction.
  - reflexivity.
Qed.

Lemma run_handleDownload_csv (env : Env) (uid : string) (u : AuthUser.t)
  (s : State) :
  allDue env uid <> [] ->
  run env (handleDownload uid (Some u) csv) s =
    mkResult (Fulfilled tt) s
      [FetchAll uid;
       Did (SaveFile (csvName (today env))
              (CsvFile (Papa_unparse (map reportRow (allDue env uid)))))].
Proof.
  intros H. unfold handleDownload, getCustomersWithDueBalance. cbn [bind run].
  destruct (Nat.eqb (List.length (allDue env uid)) 0) eqn:E.
  - apply length_zero_nil in E. contradiction.
  - reflexivity.
Qed.

Lemma pdf_body_rows (cs : list CustomerWithDue.t) :
  map Object_values (map reportRow cs) = map reportCells cs.
Proof. rewrite map_map. apply map_ext. reflexivity. Qed.

Lemma csv_data_rows (cs : list CustomerWithDue.t) :
  csvData (Papa_unparse (map reportRow cs)) = map reportCells cs.
Proof.
  destruct cs as [|c cs]; [reflexivity|].
  change (map reportRow (c :: cs)) with (reportRow c :: map reportRow cs).
  cbn [Papa_unparse csvData].
  change (reportRow c :: map reportRow cs) with (map reportRow (c :: cs)).
  rewrite map_map. apply map_ext. reflexivity.
Qed.

Lemma csv_header_row (c : CustomerWithDue.t) (cs : list CustomerWithDue.t) :
  csvHeader (Papa_unparse (map reportRow (c :: cs))) =
    [["Customer"; "Phone"; "Due Amount"]].
Proof. reflexivity. Qed.

(** C1, as stated, fails for a signed-out user: the fetched set is not
    empty, yet the "No Data" notice is shown and no file is produced. *)
Lemma no_data_notice_without_auth_user :
  allDue env_two "u1" <> [] /\
  toasts (trace (run env_two (handleDownload "u1" None pdf) initialState)) =
    [noDataToast] /\
  files (trace (run env_two (handleDownload "u1" None pdf) initialState)) = [].
Proof. split; [discriminate | split; reflexivity]. Qed.

(** C1 (amended): for every export request (PDF or CSV), the "No Data"
    notice is shown, and no file is produced, exactly when the fetched full
    due-balance customer set is empty or there is no signed-in user;
    otherwise no notice is shown and exactly one file is produced. Neither
    the initial load nor "load more" ever shows a notice. *)
Theorem no_data_notice_iff_empty_or_signed_out (env : Env) (uid : string)
  (auth : option AuthUser.t) (fmt : FormatType) (s : State) :
  let tr := trace (run env (handleDownload uid auth fmt) s) in
  ((toasts tr = [noDataToast] /\ files tr = []) <->
   (allDue env uid = [] \/ auth = None)) /\
  ((toasts tr = [] /\ exists f a, files tr = [(f, a)]) <->
   (allDue env uid <> [] /\ auth <> None)) /\
  title noDataToast = "No Data" /\
  (forall snap, toasts (trace (run env (handleLoadMore uid snap) s)) = []) /\
  toasts (trace (run env (mountEffect uid) s)) = [].
Proof.
  cbv zeta.
  assert (Hcases : (allDue env uid = [] \/ auth = None) \/
                   (allDue env uid <> [] /\ exists u, auth = Some u)).
  { destruct (allDue env uid); [left; now left|].
    destruct auth as [u|]; [right | left; now right].
    split; [discriminate | now exists u]. }
  split; [|split; [|split; [reflexivity | split]]].
  - destruct Hcases as [H | (Hne & u & ->)].
    + rewrite (run_handleDownload_no_data env uid auth fmt s H). cbn. tauto.
    + destruct fmt;
        [rewrite (run_handleDownload_pdf env uid u s Hne)
        |rewrite (run_handleDownload_csv env uid u s Hne)];
        cbn; (split; [intros [H _]; discriminate H
                     | intros [H | H]; [contradiction | discriminate H]]).
  - destruct Hcases as [H | (Hne & u & ->)].
    + rewrite (run_handleDownload_no_data env uid auth fmt s H). cbn.
      split; [intros [H' _]; discriminate H' | intros [H1 H2]].
      destruct H as [H | H]; contradiction.
    + destruct fmt;
        [rewrite (run_handleDownload_pdf env uid u s Hne)
        |rewrite (run_handleDownload_csv env uid u s Hne)];
        cbn; (split; [intros _; split; [exact Hne | discriminate]
                     | intros _; split; [reflexivity | eauto]]).
  - intros snap.
    destruct (handleLoadMore_cases uid snap) as [-> | [-> | [c ->]]]; reflexivity.
  - unfold mountEffect. destruct (truthy uid); reflexivity.
Qed.

(** C9: an export, whether it ends in the "No Data" notice or in a file,
    contains no state update: the customer list, [hasMore] and both loading
    flags after it are those before it. *)
Theorem export_leaves_pagination_state (env : Env) (uid : string)
  (auth : option AuthUser.t) (fmt : FormatType) (s : State) :
  Stateless (handleDownload uid auth fmt) /\
  final (run env (handleDownload uid auth fmt) s) = s /\
  final (advance env (handleDownload uid auth fmt) s) = s /\
  customers (final (run env (handleDownload uid auth fmt) s)) = customers s /\
  hasMore (final (run env (handleDownload uid auth fmt) s)) = hasMore s /\
  isInitialLoading (final (run env (handleDownload uid auth fmt) s)) =
    isInitialLoading s /\
  isLoadingMore (final (run env (handleDownload uid auth fmt) s)) =
    isLoadingMore s.
Proof.
  pose proof (handleDownload_stateless uid auth fmt) as Hs.
  rewrite (stateless_run env _ Hs s), (stateless_advance env _ Hs s).
  repeat split; assumption.
Qed.

(** ** Reading an amount back *)

Lemma text_chars (s : string) : text (chars s) = s.
Proof. apply string_of_list_ascii_of_string. Qed.

Lemma read_digits_decimal (n : N) : read_digits (decimal n) = Some n.
Proof.
  unfold read_digits, decimal. rewrite text_chars.
  pose proof (DecimalN.Unsigned.of_to n) as Hn.
  unfold NilZero.string_of_uint.
  destruct (N.to_uint n) eqn:E;
    try (rewrite NilEmpty.usu, <- Hn; reflexivity).
  cbn in Hn. subst n. reflexivity.
Qed.

Lemma read_digits_zero_prefix (cs : list ascii) :
  read_digits ("0"%char :: cs) = read_digits cs.
Proof.
  unfold read_digits, text. cbn [string_of_list_ascii NilEmpty.uint_of_string].
  destruct (NilEmpty.uint_of_string (string_of_list_ascii cs)); reflexivity.
Qed.

Lemma read_digits_padded (w : nat) (n : N) :
  read_digits (pad_left w (decimal n)) = Some n.
Proof.
  unfold pad_left. induction (w - List.length (decimal n))%nat as [|k IH].
  - apply read_digits_decimal.
  - cbn [zeros app]. now rewrite read_digits_zero_prefix.
Qed.

(** The digits of [toFixed(2)] are those of the padded numeral with a point
    before the last two. *)
Lemma fixed_digits_2_split (n : Z) :
  exists ip d1 d2,
    fixed_digits 2 n = ip ++ ["."%char; d1; d2] /\
    ip ++ [d1; d2] = pad_left 3 (decimal (Z.to_N n)) /\
    (1 <= List.length ip)%nat /\ forallb is_digit ip = true /\
    is_digit d1 = true /\ is_digit d2 = true.
Proof.
  unfold fixed_digits.
  set (m := pad_left 3 (decimal (Z.to_N n))).
  assert (Hd : forallb is_digit m = true)
    by (apply pad_left_digits, decimal_digits).
  assert (Hl : (3 <= List.length m)%nat)
    by (unfold m; rewrite pad_left_length; lia).
  pose proof (firstn_skipn (List.length m - 2) m) as Hm.
  rewrite <- Hm in Hd.
  rewrite forallb_app in Hd. apply andb_true_iff in Hd as [Hip Hfr].
  assert (Hfl : List.length (skipn (List.length m - 2) m) = 2%nat)
    by (rewrite length_skipn; lia).
  destruct (skipn (List.length m - 2) m) as [|d1 [|d2 [|? ?]]] eqn:E;
    try discriminate Hfl.
  exists (firstn (List.length m - 2) m), d1, d2.
  simpl in Hfr. apply andb_true_iff in Hfr as [H1 Hfr].
  apply andb_true_iff in Hfr as [H2 _].
  repeat split; auto.
  rewrite length_firstn. lia.
Qed.

Lemma read_hundredths_fixed (negative : bool) (n : Z) :
  read_hundredths
    (text ((if negative then ["-"%char] else []) ++ fixed_digits 2 n)) =
  Some (negative, Z.to_N n).
Proof.
  destruct (fixed_digits_2_split n) as (ip & d1 & d2 & -> & Hpad & Hl & Hip & H1 & H2).
  unfold read_hundredths. rewrite chars_text.
  assert (Hsign :
    match (if negative then ["-"%char] else []) ++ ip ++ ["."%char; d1; d2] with
    | c :: _ => Ascii.eqb c "-"
    | [] => false
    end = negative).
  { destruct negative; [reflexivity|].
    destruct ip as [|c ip']; [simpl in Hl; lia|].
    cbn [app]. apply digit_not_minus.
    simpl in Hip. apply andb_true_iff in Hip. tauto. }
  cbv zeta. rewrite Hsign.
  assert (Hunsigned :
    (if negative
     then tl ((if negative then ["-"%char] else []) ++ ip ++ ["."%char; d1; d2])
     else (if negative then ["-"%char] else []) ++ ip ++ ["."%char; d1; d2]) =
    ip ++ ["."%char; d1; d2]) by (destruct negative; reflexivity).
  rewrite Hunsigned, rev_app_distr. simpl rev at 1. cbn [app].
  cbn [forallb]. rewrite H1, H2, forallb_rev', Hip, length_rev, rev_involutive.
  rewrite Hpad, read_digits_padded.
  destruct ip; [simpl in Hl; lia | reflexivity].
Qed.

Lemma nearest_scaled_nonneg (m : positive) (e : Z) :
  (0 <= nearest_scaled 2 m e)%Z.
Proof.
  unfold nearest_scaled. destruct (Z.leb_spec 0 e).
  - assert (0 < 2 ^ e)%Z by (apply Z.pow_pos_nonneg; lia). nia.
  - apply Z.div_pos; [|apply Z.pow_pos_nonneg; lia].
    assert (0 < 2 ^ (- e))%Z by (apply Z.pow_pos_nonneg; lia). lia.
Qed.

Lemma nearest_scaled_is_nearest_hundredth (m : positive) (e : Z) :
  nearest_hundredth m e (Z.to_N (nearest_scaled 2 m e)).
Proof.
  unfold nearest_hundredth. cbv zeta.
  rewrite Z2N.id by apply nearest_scaled_nonneg.
  destruct (Z.leb_spec 0 e) as [He | He].
  - rewrite (Z.max_l 0 (- e)), (Z.max_r 0 e) by lia.
    unfold nearest_scaled. destruct (Z.leb_spec 0 e); [|lia].
    change (10 ^ Z.of_nat 2)%Z with 100%Z.
    change (2 ^ (0 + 1))%Z with 2%Z. change (2 ^ 0)%Z with 1%Z.
    assert (0 < 2 ^ e)%Z by (apply Z.pow_pos_nonneg; lia). lia.
  - rewrite (Z.max_r 0 (- e)), (Z.max_l 0 e) by lia.
    pose proof (nearest_scaled_nearest 2 m e He) as H. cbv zeta in H.
    change (10 ^ Z.of_nat 2)%Z with 100%Z in H.
    replace (- e + 1)%Z with (1 - e)%Z by lia.
    change (2 ^ 0)%Z with 1%Z. lia.
Qed.

(** For a balance printed in fixed-point notation, [toFixed(2)] shows the
    balance with two decimals in the specification's sense. *)
Lemma toFixed_2_shows_balance (x : number) :
  prints_fixed x = true -> shows_with_two_decimals x (toFixed 2 x).
Proof.
  destruct x as [sg | sg | | sg m e]; cbn [toFixed prints_fixed shows_with_two_decimals];
    try discriminate; intros H.
  - apply (read_hundredths_fixed false 0).
  - apply negb_true_iff in H. rewrite H.
    exists (Z.to_N (nearest_scaled 2 m e)). split.
    + apply (read_hundredths_fixed sg).
    + apply nearest_scaled_is_nearest_hundredth.
Qed.

Lemma exported_rows_no_data (env : Env) (uid : string)
  (auth : option AuthUser.t) (fmt : FormatType) (s : State) :
  allDue env uid = [] \/ auth = None ->
  exportedRows (trace (run env (handleDownload uid auth fmt) s)) = [].
Proof.
  intros H. now rewrite (run_handleDownload_no_data env uid auth fmt s H).
Qed.

Lemma exported_rows_file (env : Env) (uid : string) (u : AuthUser.t)
  (fmt : FormatType) (s : State) :
  allDue env uid <> [] ->
  exportedRows (trace (run env (handleDownload uid (Some u) fmt) s)) =
    [map reportCells (allDue env uid)].
Proof.
  intros Hne. unfold exportedRows.
  destruct fmt;
    [rewrite (run_handleDownload_pdf env uid u s Hne)
    |rewrite (run_handleDownload_csv env uid u s Hne)];
    cbn [trace files map snd artifactRows reportPdf tables tableBody List.concat];
    now rewrite ?app_nil_r, ?pdf_body_rows, ?csv_data_rows.
Qed.

Lemma report_cells_meet_spec (cs : list CustomerWithDue.t) :
  Forall2 (fun c row =>
             row = [CustomerWithDue.name c; CustomerWithDue.phone c;
                    ("$" ++ toFixed 2 (CustomerWithDue.dueBalance c))%string] /\
             (prints_fixed (CustomerWithDue.dueBalance c) = true ->
              spec_report_row c row))
          cs (map reportCells cs).
Proof.
  induction cs as [|c cs IH]; cbn [map]; constructor; [|exact IH].
  split; [reflexivity|]. intros Hx.
  exists (toFixed 2 (CustomerWithDue.dueBalance c)).
  split; [reflexivity | now apply toFixed_2_shows_balance].
Qed.

(** C10, as stated, fails on the mapping: for a customer who owes 10^21 and
    one whose balance is NaN the PDF rows and the CSV rows are equal, but
    their third cell is not the due balance with two decimals. *)
Lemma report_rows_agree_without_two_decimals :
  exportedRows (trace (run env_huge (handleDownload "u1" (Some shop) pdf)
                         initialState)) =
  exportedRows (trace (run env_huge (handleDownload "u1" (Some shop) csv)
                         initialState)) /\
  exportedRows (trace (run env_huge (handleDownload "u1" (Some shop) csv)
                         initialState)) =
    [[["Carol"; "0193"; "$1e+21"]; ["Dave"; "0204"; "$NaN"]]] /\
  ~ spec_report_row carol ["Carol"; "0193"; "$1e+21"] /\
  ~ spec_report_row dave ["Dave"; "0204"; "$NaN"].
Proof.
  split; [vm_compute; reflexivity|]. split; [vm_compute; reflexivity|]. split.
  - intros (amount & Hrow & Hshow). cbn in Hrow. injection Hrow as <-.
    destruct Hshow as (n & Hread & _). vm_compute in Hread. discriminate Hread.
  - intros (amount & _ & Hshow). exact Hshow.
Qed.

(** C10 (amended): for the same fetched list, the body rows of the PDF
    table and the data records of the CSV are the same list: one row per
    customer, in order, holding the name, the phone and ["$"] followed by
    [toFixed(2)] of the due balance. For a customer whose balance is finite
    and of magnitude below 10^21 that amount is the due balance with two
    decimals: digits, a point and two digits denoting a nearest number of
    hundredths. *)
Theorem pdf_and_csv_rows_agree (env : Env) (uid : string)
  (auth : option AuthUser.t) (s : State) :
  let rowsOf fmt :=
    exportedRows (trace (run env (handleDownload uid auth fmt) s)) in
  rowsOf pdf = rowsOf csv /\
  (forall fmt rs, In rs (rowsOf fmt) ->
     Forall2 (fun c row =>
                row = [CustomerWithDue.name c; CustomerWithDue.phone c;
                       ("$" ++ toFixed 2 (CustomerWithDue.dueBalance c))%string] /\
                (prints_fixed (CustomerWithDue.dueBalance c) = true ->
                 spec_report_row c row))
             (allDue env uid) rs) /\
  (allDue env uid <> [] -> auth <> None ->
   exists rs,
     rowsOf pdf = [rs] /\ rowsOf csv = [rs] /\
     List.length rs = List.length (allDue env uid)).
Proof.
  cbv zeta.
  assert (Hcases : (allDue env uid = [] \/ auth = None) \/
                   (allDue env uid <> [] /\ exists u, auth = Some u)).
  { destruct (allDue env uid); [left; now left|].
    destruct auth as [u|]; [right | left; now right].
    split; [discriminate | now exists u]. }
  destruct Hcases as [H | (Hne & u & ->)].
  - rewrite !(exported_rows_no_data env uid auth _ s H).
    split; [reflexivity | split].
    + intros fmt rs. rewrite (exported_rows_no_data env uid auth fmt s H).
      intros [].
    + intros Hne Hauth. destruct H; contradiction.
  - rewrite !(exported_rows_file env uid u _ s Hne).
    split; [reflexivity | split].
    + intros fmt rs. rewrite (exported_rows_file env uid u fmt s Hne).
      intros [<- | []]. apply report_cells_meet_spec.
    + intros _ _. exists (map reportCells (allDue env uid)).
      split; [reflexivity | split; [reflexivity | apply length_map]].
Qed.

Lemma pdf_and_csv_rows_agree_witness :
  let rs := [["Alice"; "0171"; "$12.50"]; ["Bob"; "0182"; "$0.10"]] in
  In rs (exportedRows (trace (run env_two (handleDownload "u1" (Some shop) pdf)
                                initialState))) /\
  In rs (exportedRows (trace (run env_two (handleDownload "u1" (Some shop) csv)
                                initialState))) /\
  prints_fixed (CustomerWithDue.dueBalance alice) = true /\
  prints_fixed (CustomerWithDue.dueBalance bob) = true /\
  spec_report_row alice ["Alice"; "0171"; "$12.50"] /\
  spec_report_row bob ["Bob"; "0182"; "$0.10"].
Proof.
  intros rs.
  assert (Hpdf : In rs (exportedRows
            (trace (run env_two (handleDownload "u1" (Some shop) pdf)
                      initialState)))) by (left; reflexivity).
  assert (Hcsv : In rs (exportedRows
            (trace (run env_two (handleDownload "u1" (Some shop) csv)
                      initialState)))) by (left; reflexivity).
  destruct (pdf_and_csv_rows_agree env_two "u1" (Some shop) initialState)
    as (_ & Hrows & _).
  pose proof (Hrows csv rs Hcsv) as Hall.
  change (allDue env_two "u1") with [alice; bob] in Hall.
  inversion Hall as [|c1 r1 cs1 rs1 [_ Ha] Hrest]; subst.
  inversion Hrest as [|c2 r2 cs2 rs2 [_ Hb] _]; subst.
  split; [exact Hpdf|]. split; [exact Hcsv|].
  split; [reflexivity|]. split; [reflexivity|].
  split; [apply Ha; reflexivity | apply Hb; reflexivity].
Defined.

(** ** File names *)

Lemma decimal_length_check_4 :
  forallb (fun n => (List.length (decimal (N.of_nat n)) <=? 4)%nat)
          (seq 0 (N.to_nat 10000)) = true.
Proof. vm_compute. reflexivity. Qed.

Lemma decimal_length_check_2 :
  forallb (fun n => (List.length (decimal (N.of_nat n)) <=? 2)%nat)
          (seq 0 (N.to_nat 100)) = true.
Proof. vm_compute. reflexivity. Qed.

Lemma decimal_length_4 (y : N) :
  (y < 10000)%N -> (List.length (decimal y) <= 4)%nat.
Proof.
  intros H. pose proof decimal_length_check_4 as C.
  rewrite forallb_forall in C. specialize (C (N.to_nat y)).
  rewrite N2Nat.id in C. apply Nat.leb_le, C, in_seq. lia.
Qed.

Lemma decimal_length_2 (y : N) :
  (y < 100)%N -> (List.length (decimal y) <= 2)%nat.
Proof.
  intros H. pose proof decimal_length_check_2 as C.
  rewrite forallb_forall in C. specialize (C (N.to_nat y)).
  rewrite N2Nat.id in C. apply Nat.leb_le, C, in_seq. lia.
Qed.

Lemma padded_field (w : nat) (n : N) :
  (List.length (decimal n) <= w)%nat ->
  List.length (pad_left w (decimal n)) = w /\
  forallb is_digit (pad_left w (decimal n)) = true.
Proof.
  intros H. split.
  - rewrite pad_left_length. lia.
  - apply pad_left_digits, decimal_digits.
Qed.

(** On a calendar date with a four-digit year, ['yyyy-MM-dd'] prints the
    shape [dddd-dd-dd]. *)
Lemma format_yyyy_MM_dd_iso (d : Date) :
  valid_date d = true -> is_iso_date (format_yyyy_MM_dd d) = true.
Proof.
  unfold valid_date. intros H.
  repeat (apply andb_true_iff in H as [H ?]).
  repeat match goal with
         | h : (_ <? _)%Z = true |- _ => apply Z.ltb_lt in h
         | h : (_ <=? _)%N = true |- _ => apply N.leb_le in h
         end.
  assert (Hera : (eraYear d < 10000)%N).
  { unfold eraYear. destruct (Z.ltb_spec 0 (year d)); lia. }
  destruct (padded_field 4 (eraYear d)) as [Ly Dy];
    [apply decimal_length_4; exact Hera|].
  destruct (padded_field 2 (month d)) as [Lm Dm]; [apply decimal_length_2; lia|].
  destruct (padded_field 2 (day d)) as [Ld Dd]; [apply decimal_length_2; lia|].
  unfold format_yyyy_MM_dd, is_iso_date. rewrite chars_text.
  destruct (pad_left 4 (decimal (eraYear d))) as [|y1 [|y2 [|y3 [|y4 [|? ?]]]]];
    try discriminate Ly.
  destruct (pad_left 2 (decimal (month d))) as [|m1 [|m2 [|? ?]]];
    try discriminate Lm.
  destruct (pad_left 2 (decimal (day d))) as [|d1 [|d2 [|? ?]]];
    try discriminate Ld.
  cbn [app]. cbn [forallb] in *.
  repeat match goal with
         | h : _ && _ = true |- _ => apply andb_true_iff in h as [? ?]
         end.
  repeat match goal with
         | h : is_digit _ = true |- _ => rewrite h; clear h
         end.
  reflexivity.
Qed.

(** C6, as stated, fails for a signed-out user: two customers are fetched
    and neither export produces a file. *)
Lemma export_without_auth_user_no_file :
  List.length (allDue env_two "u1") = 2%nat /\
  files (trace (run env_two (handleDownload "u1" None csv) initialState)) = [] /\
  files (trace (run env_two (handleDownload "u1" None pdf) initialState)) = [].
Proof. repeat split. Qed.

(** C6 (amended): for every non-empty fetched set of N due-balance customers
    and a signed-in user, the CSV export produces exactly one file, with one
    header row plus N data rows, and the PDF export produces exactly one
    file, whose single table has one head row and N body rows; the files are
    named [pending-receivables-<date>.csv] and [pending-receivables-<date>.pdf]
    where [<date>] is today's date printed as [yyyy-MM-dd]. *)
Theorem export_row_counts_and_names (env : Env) (uid : string) (u : AuthUser.t)
  (s : State) :
  allDue env uid <> [] ->
  let n := List.length (allDue env uid) in
  let stamp := format_yyyy_MM_dd (today env) in
  (exists c,
      files (trace (run env (handleDownload uid (Some u) csv) s)) =
        [(("pending-receivables-" ++ stamp ++ ".csv")%string, CsvFile c)] /\
      csvHeader c = [["Customer"; "Phone"; "Due Amount"]] /\
      List.length (csvData c) = n) /\
  (exists doc t,
      files (trace (run env (handleDownload uid (Some u) pdf) s)) =
        [(("pending-receivables-" ++ stamp ++ ".pdf")%string, PdfFile doc)] /\
      tables doc = [t] /\
      head t = [["Customer"; "Phone"; "Due Amount"]] /\
      List.length (tableBody t) = n) /\
  (valid_date (today env) = true -> is_iso_date stamp = true).
Proof.
  intros Hne n stamp. split; [|split].
  - rewrite (run_handleDownload_csv env uid u s Hne).
    eexists. split; [reflexivity|]. split.
    + destruct (allDue env uid) as [|c cs]; [contradiction|].
      apply csv_header_row.
    + rewrite csv_data_rows. apply length_map.
  - rewrite (run_handleDownload_pdf env uid u s Hne).
    eexists. eexists. split; [reflexivity|]. cbn [reportPdf tables].
    split; [reflexivity|]. cbn [head tableBody].
    split; [reflexivity|]. rewrite pdf_body_rows. apply length_map.
  - apply format_yyyy_MM_dd_iso.
Qed.

Lemma export_row_counts_and_names_witness :
  allDue env_two "u1" <> [] /\
  (exists c,
      files (trace (run env_two (handleDownload "u1" (Some shop) csv)
                      initialState)) =
        [("pending-receivables-2026-11-01.csv", CsvFile c)] /\
      csvHeader c = [["Customer"; "Phone"; "Due Amount"]] /\
      List.length (csvData c) = 2%nat) /\
  (exists doc t,
      files (trace (run env_two (handleDownload "u1" (Some shop) pdf)
                      initialState)) =
        [("pending-receivables-2026-11-01.pdf", PdfFile doc)] /\
      tables doc = [t] /\
      head t = [["Customer"; "Phone"; "Due Amount"]] /\
      List.length (tableBody t) = 2%nat) /\
  (valid_date (today env_two) = true ->
   is_iso_date (format_yyyy_MM_dd (today env_two)) = true).
Proof.
  split.
  - discriminate.
  - apply (export_row_counts_and_names env_two "u1" shop initialState).
    discriminate.
Defined.

(** ** Currency formatting *)

(** C8, as stated, fails for a balance that [toFixed] does not print in
    fixed-point notation: a balance of 10^21 is rendered as ["$1e+21"] and a
    NaN balance as ["$NaN"], in the table and in both reports. *)
Lemma huge_balance_has_no_decimals :
  is_binary64 (CustomerWithDue.dueBalance carol) = true /\
  two_decimal_places (toFixed 2 (CustomerWithDue.dueBalance carol)) = false /\
  two_decimal_places (toFixed 2 (CustomerWithDue.dueBalance dave)) = false /\
  rows (render (loaded [carol; dave] false)) =
    [CustomerRow "c3" "/customers/c3" "Carol" "0193" "$1e+21";
     CustomerRow "c4" "/customers/c4" "Dave" "0204" "$NaN"] /\
  exportedRows (trace (run env_huge (handleDownload "u1" (Some shop) pdf)
                         initialState)) =
    [[["Carol"; "0193"; "$1e+21"]; ["Dave"; "0204"; "$NaN"]]] /\
  exportedRows (trace (run env_huge (handleDownload "u1" (Some shop) csv)
                         initialState)) =
    [[["Carol"; "0193"; "$1e+21"]; ["Dave"; "0204"; "$NaN"]]].
Proof. repeat split; vm_compute; reflexivity. Qed.

(** C8 (amended): for every customer whose due balance is finite and of
    magnitude below 10^21, the amount in the customer's table row and the
    Due Amount field of the customer's row in both exported reports is ["$"]
    followed by the balance printed by [toFixed(2)], which has exactly two
    decimal places. *)
Theorem due_amount_two_decimals (c : CustomerWithDue.t) :
  prints_fixed (CustomerWithDue.dueBalance c) = true ->
  exists amount,
    amount = toFixed 2 (CustomerWithDue.dueBalance c) /\
    two_decimal_places amount = true /\
    (forall s, isInitialLoading s = false -> In c (customers s) ->
       In (CustomerRow (CustomerWithDue.id c)
             ("/customers/" ++ CustomerWithDue.id c)%string
             (CustomerWithDue.name c) (CustomerWithDue.phone c)
             ("$" ++ amount)%string)
          (rows (render s))) /\
    (forall env uid u fmt s, In c (allDue env uid) ->
       exists f a,
         files (trace (run env (handleDownload uid (Some u) fmt) s)) = [(f, a)] /\
         In [CustomerWithDue.name c; CustomerWithDue.phone c;
             ("$" ++ amount)%string]
            (artifactRows a)).
Proof.
  intros Hx. exists (toFixed 2 (CustomerWithDue.dueBalance c)).
  split; [reflexivity|]. split; [now apply toFixed_2_two_decimal_places|]. split.
  - intros s Hl Hin. unfold render. cbn [rows]. rewrite Hl.
    destruct (customers s) as [|c0 cs] eqn:E; [contradiction|].
    change (0 <? List.length (c0 :: cs))%nat with true. cbv iota.
    apply (in_map customerRow) in Hin. exact Hin.
  - intros env uid u fmt s Hin.
    assert (Hne : allDue env uid <> []) by (intros E; rewrite E in Hin; exact Hin).
    pose proof (exported_rows_file env uid u fmt s Hne) as Hrows.
    unfold exportedRows in Hrows.
    destruct (files (trace (run env (handleDownload uid (Some u) fmt) s)))
      as [|[f a] [|? ?]]; try discriminate Hrows.
    exists f, a. split; [reflexivity|].
    cbn [map snd] in Hrows. injection Hrows as ->.
    apply (in_map reportCells) in Hin. exact Hin.
Qed.

Lemma due_amount_two_decimals_witness :
  prints_fixed (CustomerWithDue.dueBalance alice) = true /\
  two_decimal_places "12.50" = true /\
  In (CustomerRow "c1" "/customers/c1" "Alice" "0171" "$12.50")
     (rows (render (loaded [alice; bob] true))) /\
  (exists f a,
      files (trace (run env_two (handleDownload "u1" (Some shop) csv)
                      initialState)) = [(f, a)] /\
      In ["Alice"; "0171"; "$12.50"] (artifactRows a)) /\
  (exists f a,
      files (trace (run env_two (handleDownload "u1" (Some shop) pdf)
                      initialState)) = [(f, a)] /\
      In ["Alice"; "0171"; "$12.50"] (artifactRows a)).
Proof.
  destruct (due_amount_two_decimals alice eq_refl)
    as (amount & -> & Hd & Htable & Hexport).
  split; [reflexivity|]. split; [exact Hd|]. split; [|split].
  - apply (Htable (loaded [alice; bob] true)); [reflexivity | left; reflexivity].
  - apply (Hexport env_two "u1" shop csv initialState). left; reflexivity.
  - apply (Hexport env_two "u1" shop pdf initialState). left; reflexivity.
Defined.

(** * Further properties of the component *)

(** ** Initial load *)

Lemma run_mountEffect (env : Env) (uid : string) (s : State) :
  uid <> "" ->
  run env (mountEffect uid) s =
    mkResult (Fulfilled tt)
             (afterInitialLoad (paginated env (firstPageRequest uid)) s)
             [FetchPage (firstPageRequest uid)].
Proof.
  intros Hu. unfold mountEffect. rewrite (truthy_nonempty uid Hu). reflexivity.
Qed.

Lemma mountEffect_pending (env : Env) (uid : string) (s : State)
  (req : PageRequest) (k : PageResponse -> Task unit) :
  outcome (advance env (mountEffect uid) s) = PendingPage req k ->
  req = firstPageRequest uid /\
  forall page s', advance env (k page) s' =
    mkResult (Settled (Fulfilled tt)) (afterInitialLoad page s') [].
Proof.
  unfold mountEffect. destruct (truthy uid); cbn; intros H;
    [|discriminate H].
  injection H as <- <-. split; reflexivity.
Qed.

Lemma handleLoadMore_pending (env : Env) (uid : string) (snap s : State)
  (req : PageRequest) (k : PageResponse -> Task unit) :
  outcome (advance env (handleLoadMore uid snap) s) = PendingPage req k ->
  (exists c, req = nextPageRequest uid c) /\
  forall page s', advance env (k page) s' =
    mkResult (Settled (Fulfilled tt))
      (setIsLoadingMore false
         (setHasMore (hasMoreResult page)
            (setCustomers (fun prev => prev ++ customersWithDue page) s')))
      [].
Proof.
  destruct (handleLoadMore_cases uid snap) as [-> | [-> | [c ->]]]; cbn;
    intros H; try discriminate H.
  injection H as <- <-. split; [now exists c | reflexivity].
Qed.

(** X1: for a non-empty user identifier, when the first page arrives the
    customer list becomes exactly that page (whatever was listed before is
    discarded), [hasMore] becomes the page's flag, [isInitialLoading] is
    cleared and [isLoadingMore] is left alone; the table then shows one row
    per customer of the page, or the single "No pending receivables" row
    when the page is empty. *)
Theorem initial_load_replaces_list (env : Env) (uid : string) (s : State) :
  uid <> "" ->
  let page := paginated env (firstPageRequest uid) in
  let s' := final (run env (mountEffect uid) s) in
  s' = afterInitialLoad page s /\
  customers s' = customersWithDue page /\
  hasMore s' = hasMoreResult page /\
  isInitialLoading s' = false /\
  isLoadingMore s' = isLoadingMore s /\
  rows (render s') =
    match customersWithDue page with
    | [] => [EmptyRow "No pending receivables. Great job!"]
    | _ :: _ => map customerRow (customersWithDue page)
    end.
Proof.
  intros Hu page s'. unfold s'. rewrite (run_mountEffect env uid s Hu).
  cbn [final]. fold page. repeat split.
  unfold render, afterInitialLoad. cbn [rows isInitialLoading customers].
  destruct (customersWithDue page); reflexivity.
Qed.

Lemma initial_load_replaces_list_witness :
  "u1" <> "" /\
  customers (final (run env_pages (mountEffect "u1") (loaded [carol; dave] false)))
    = [alice; bob] /\
  hasMore (final (run env_pages (mountEffect "u1") (loaded [carol; dave] false)))
    = true.
Proof.
  destruct (initial_load_replaces_list env_pages "u1"
              (loaded [carol; dave] false)) as (_ & Hc & Hm & _).
  - discriminate.
  - split; [discriminate | split; [exact Hc | exact Hm]].
Defined.

(** X2: with an empty user identifier the mount effect does nothing: no
    fetch, no state change. From the initial state the view therefore keeps
    its five skeleton rows, with the "Load More" button shown and enabled. *)
Theorem empty_user_id_never_loads (env : Env) (s : State) :
  run env (mountEffect "") s = mkResult (Fulfilled tt) s [] /\
  advance env (mountEffect "") s = mkResult (Settled (Fulfilled tt)) s [] /\
  rows (render (final (run env (mountEffect "") initialState))) = skeletonRows /\
  loadMoreButton (render (final (run env (mountEffect "") initialState))) =
    Some {| disabled := false; label := "Load More" |}.
Proof. repeat split. Qed.

(** ** Rendering *)

(** X3: the table body is never empty. It has five rows while the initial
    load is pending and otherwise one row per loaded customer, or one
    message row when none is loaded; once loaded, row [i] shows customer
    [i]: keyed by its id, linking to [/customers/<id>], with its name, phone
    and due amount. *)
Theorem table_body_rows (s : State) :
  List.length (rows (render s)) =
    (if isInitialLoading s then 5 else Nat.max 1 (List.length (customers s)))%nat /\
  rows (render s) <> [] /\
  (isInitialLoading s = false ->
   forall i c, nth_error (customers s) i = Some c ->
     nth_error (rows (render s)) i =
       Some (CustomerRow (CustomerWithDue.id c)
               ("/customers/" ++ CustomerWithDue.id c)%string
               (CustomerWithDue.name c) (CustomerWithDue.phone c)
               (dueAmount c))) /\
  (isInitialLoading s = false -> customers s = [] ->
   rows (render s) = [EmptyRow "No pending receivables. Great job!"]).
Proof.
  unfold render. cbn [rows].
  destruct (isInitialLoading s); [repeat split; try discriminate|].
  destruct (customers s) as [|c0 cs] eqn:Hc.
  - repeat split; try discriminate.
    intros _ i c H. destruct i; discriminate H.
  - change (0 <? List.length (c0 :: cs))%nat with true. cbv iota.
    split; [rewrite length_map; cbn [List.length]; lia|].
    split; [discriminate|]. split; [|discriminate].
    intros _ i c H. apply (map_nth_error customerRow) in H. exact H.
Qed.

Lemma table_body_rows_witness :
  isInitialLoading (loaded [alice; bob] true) = false /\
  nth_error (customers (loaded [alice; bob] true)) 1 = Some bob /\
  nth_error (rows (render (loaded [alice; bob] true))) 1 =
    Some (CustomerRow "c2" "/customers/c2" "Bob" "0182" "$0.10").
Proof.
  destruct (table_body_rows (loaded [alice; bob] true)) as (_ & _ & H & _).
  split; [reflexivity | split; [reflexivity|]].
  apply (H eq_refl 1%nat bob). reflexivity.
Defined.

(** X4: the "Load More" control agrees with the handler's guard. It is
    absent exactly when [hasMore] is false, shown disabled with the label
    "Loading..." exactly when [hasMore] holds and a load is in flight, and
    shown enabled exactly in the states where a click is not a no-op. *)
Theorem load_more_button_matches_guard (env : Env) (uid : string) (s : State) :
  (loadMoreButton (render s) = None <-> hasMore s = false) /\
  (loadMoreButton (render s) =
     Some {| disabled := true; label := "Loading..." |} <->
   hasMore s = true /\ isLoadingMore s = true) /\
  (loadMoreButton (render s) =
     Some {| disabled := false; label := "Load More" |} <->
   run env (handleLoadMore uid s) s <> mkResult (Fulfilled tt) s []).
Proof.
  unfold render. cbn [loadMoreButton].
  destruct (hasMore s) eqn:Hm.
  - destruct (isLoadingMore s) eqn:Hl.
    + rewrite (handleLoadMore_closed uid s) by (now right). cbn.
      repeat split; try discriminate; try tauto.
    + split; [split; discriminate|]. split; [split; [discriminate | intros [_ H]; discriminate H]|].
      split; [|reflexivity]. intros _.
      destruct (customers s) as [|c0 cs] eqn:Hc.
      * rewrite (handleLoadMore_empty uid s Hm Hl Hc). cbn. discriminate.
      * destruct (nonempty_last (c0 :: cs)) as (init & c & Hlast); [discriminate|].
        rewrite <- Hc in Hlast.
        rewrite (handleLoadMore_open uid s init c Hm Hl Hlast). cbn. discriminate.
  - rewrite (handleLoadMore_closed uid s) by (now left). cbn.
    split; [split; reflexivity|]. split; [split; [discriminate | intros [H _]; discriminate H]|].
    split; [discriminate|]. intros H. exfalso. now apply H.
Qed.

(** ** Load more, from click to completion *)

Lemma run_handleLoadMore_open (env : Env) (uid : string) (s : State)
  (init : list CustomerWithDue.t) (c : CustomerWithDue.t) :
  hasMore s = true -> isLoadingMore s = false -> customers s = init ++ [c] ->
  run env (handleLoadMore uid s) s =
    mkResult (Fulfilled tt)
      {| customers :=
           customers s ++ customersWithDue (paginated env (nextPageRequest uid c));
         hasMore := hasMoreResult (paginated env (nextPageRequest uid c));
         isInitialLoading := isInitialLoading s;
         isLoadingMore := false |}
      [FetchPage (nextPageRequest uid c)].
Proof.
  intros Hm Hl Hc. rewrite (handleLoadMore_open uid s init c Hm Hl Hc).
  reflexivity.
Qed.

Lemma run_handleLoadMore_closed (env : Env) (uid : string) (s : State) :
  hasMore s = false \/ isLoadingMore s = true ->
  run env (handleLoadMore uid s) s = mkResult (Fulfilled tt) s [].
Proof. intros H. now rewrite (handleLoadMore_closed uid s H). Qed.

(** X5: a click that fetches (non-empty list, [hasMore] true, nothing in
    flight) sets [isLoadingMore] while its request is pending. When the page
    arrives, [hasMore] becomes the page's flag, [isLoadingMore] is cleared
    and [isInitialLoading] is not touched; when the page says there is no
    more, the button disappears and a further click is a no-op. When the
    request is rejected instead, nothing after the [await] runs: the list
    and [hasMore] are unchanged and [isLoadingMore] stays set. *)
Theorem load_more_completion_flags (env : Env) (uid : string) (s : State) :
  customers s <> [] -> hasMore s = true -> isLoadingMore s = false ->
  exists init c k,
    customers s = init ++ [c] /\
    advance env (handleLoadMore uid s) s =
      mkResult (PendingPage (nextPageRequest uid c) k)
               (setIsLoadingMore true s)
               [FetchPage (nextPageRequest uid c)] /\
    (forall (page : PageResponse) (s' : State),
        let s'' := final (advance env (k page) s') in
        outcome (advance env (k page) s') = Settled (Fulfilled tt) /\
        hasMore s'' = hasMoreResult page /\
        isLoadingMore s'' = false /\
        isInitialLoading s'' = isInitialLoading s' /\
        (hasMoreResult page = false ->
         loadMoreButton (render s'') = None /\
         run env (handleLoadMore uid s'') s'' = mkResult (Fulfilled tt) s'' [])) /\
    whenFetchRejected env (handleLoadMore uid s) s =
      mkResult FetchRejected (setIsLoadingMore true s)
               [FetchPage (nextPageRequest uid c)].
Proof.
  intros Hne Hm Hl.
  destruct (nonempty_last _ Hne) as (init & c & Hc).
  exists init, c. eexists. split; [exact Hc|].
  unfold whenFetchRejected.
  rewrite (handleLoadMore_open uid s init c Hm Hl Hc).
  split; [reflexivity|]. split; [|reflexivity].
  intros page s'. cbn.
  split; [reflexivity|]. split; [reflexivity|]. split; [reflexivity|].
  split; [reflexivity|].
  intros Hlast. split.
  - unfold render. cbn [loadMoreButton hasMore]. now rewrite Hlast.
  - apply run_handleLoadMore_closed. left. exact Hlast.
Qed.

Lemma load_more_completion_flags_witness :
  let s := loaded [alice; bob] true in
  (customers s <> [] /\ hasMore s = true /\ isLoadingMore s = false) /\
  exists k,
    outcome (advance env_pages (handleLoadMore "u1" s) s) =
      PendingPage (nextPageRequest "u1" bob) k /\
    final (advance env_pages (k (mkPageResponse [carol] false))
             (setIsLoadingMore true s)) = loaded [alice; bob; carol] false /\
    whenFetchRejected env_pages (handleLoadMore "u1" s) s =
      mkResult FetchRejected (setIsLoadingMore true s)
               [FetchPage (nextPageRequest "u1" bob)].
Proof.
  intros s. split.
  - split; [discriminate | split; reflexivity].
  - destruct (load_more_completion_flags env_pages "u1" s)
      as (init & c & k & Hc & Ha & Hk & Hr);
      [discriminate | reflexivity | reflexivity |].
    assert (E : c = bob).
    { apply (f_equal (fun l => last l alice)) in Hc.
      rewrite last_last in Hc. symmetry. exact Hc. }
    subst c. exists k. split; [rewrite Ha; reflexivity|]. split; [|exact Hr].
    cbn in Ha. injection Ha as <-. reflexivity.
Defined.

(** No user action changes the state while the guard is closed. *)
Lemma act_closed (env : Env) (uid : string) (auth : option AuthUser.t)
  (s : State) (a : Action) :
  hasMore s = false \/ isLoadingMore s = true -> act env uid auth s a = s.
Proof.
  intros H. unfold act. destruct a as [|fmt]; cbn [handlerOf].
  - now rewrite (run_handleLoadMore_closed env uid s H).
  - apply stateless_run, handleDownload_stateless.
Qed.

Lemma session_closed (env : Env) (uid : string) (auth : option AuthUser.t)
  (actions : list Action) (s : State) :
  hasMore s = false \/ isLoadingMore s = true ->
  session env uid auth actions s = s.
Proof.
  intros H. unfold session.
  induction actions as [|a actions IH]; cbn [fold_left]; [reflexivity|].
  now rewrite (act_closed env uid auth s a H).
Qed.

(** X6: a click on "load more" that passes the guard on an empty list
    leaves [isLoadingMore] set for good. The button is then shown disabled
    with the label "Loading...", no sequence of clicks and exports changes
    the state, and when the first page arrives afterwards the list is
    filled but [isLoadingMore] is still set, so "load more" stays a no-op. *)
Theorem load_more_on_empty_list_sticks (env : Env) (uid : string)
  (auth : option AuthUser.t) (s : State) :
  hasMore s = true -> isLoadingMore s = false -> customers s = [] ->
  let s1 := final (run env (handleLoadMore uid s) s) in
  isLoadingMore s1 = true /\
  loadMoreButton (render s1) =
    Some {| disabled := true; label := "Loading..." |} /\
  (forall actions, session env uid auth actions s1 = s1) /\
  (uid <> "" ->
   let s2 := final (run env (mountEffect uid) s1) in
   customers s2 = customersWithDue (paginated env (firstPageRequest uid)) /\
   isLoadingMore s2 = true /\
   forall actions, session env uid auth actions s2 = s2).
Proof.
  intros Hm Hl Hc. cbv zeta.
  rewrite (handleLoadMore_empty uid s Hm Hl Hc). cbn [run final].
  split; [reflexivity|]. split.
  { unfold render. cbn [loadMoreButton setIsLoadingMore hasMore isLoadingMore].
    now rewrite Hm. }
  split.
  { intros actions. apply session_closed. now right. }
  intros Hu. rewrite (run_mountEffect env uid _ Hu). cbn [final].
  split; [reflexivity|]. split; [reflexivity|].
  intros actions. apply session_closed. now right.
Qed.

Lemma load_more_on_empty_list_sticks_witness :
  (hasMore initialState = true /\ isLoadingMore initialState = false /\
   customers initialState = [] /\ "u1" <> "") /\
  let s1 := final (run env_pages (handleLoadMore "u1" initialState) initialState) in
  let s2 := final (run env_pages (mountEffect "u1") s1) in
  customers s2 = [alice; bob] /\
  isLoadingMore s2 = true /\
  session env_pages "u1" (Some shop) [ClickLoadMore; ClickLoadMore] s2 = s2.
Proof.
  split.
  - repeat split. discriminate.
  - destruct (load_more_on_empty_list_sticks env_pages "u1" (Some shop)
                initialState eq_refl eq_refl eq_refl) as (_ & _ & _ & H).
    destruct H as (Hc & Hl & Hs); [discriminate|].
    cbv zeta. split; [exact Hc | split; [exact Hl | apply Hs]].
Defined.

(** X7: the first page and the next one chain. When the first page is
    non-empty and announces more, a click on "load more" in the state it
    leaves asks for the page after the last customer of the first page, and
    the list becomes the first page followed by that page, with [hasMore]
    taken from the second answer and both loading flags cleared. *)
Theorem first_page_then_load_more (env : Env) (uid : string) (s : State)
  (init : list CustomerWithDue.t) (c : CustomerWithDue.t) :
  uid <> "" ->
  isLoadingMore s = false ->
  customersWithDue (paginated env (firstPageRequest uid)) = init ++ [c] ->
  hasMoreResult (paginated env (firstPageRequest uid)) = true ->
  let s1 := final (run env (mountEffect uid) s) in
  let r2 := run env (handleLoadMore uid s1) s1 in
  let page2 := paginated env (nextPageRequest uid c) in
  trace r2 = [FetchPage (nextPageRequest uid c)] /\
  outcome r2 = Fulfilled tt /\
  customers (final r2) = (init ++ [c]) ++ customersWithDue page2 /\
  hasMore (final r2) = hasMoreResult page2 /\
  isInitialLoading (final r2) = false /\
  isLoadingMore (final r2) = false.
Proof.
  intros Hu Hl Hpage Hmore. cbv zeta.
  rewrite (run_mountEffect env uid s Hu). cbn [final].
  set (s1 := afterInitialLoad (paginated env (firstPageRequest uid)) s).
  assert (H1 : hasMore s1 = true) by exact Hmore.
  assert (H2 : isLoadingMore s1 = false) by exact Hl.
  assert (H3 : customers s1 = init ++ [c]) by exact Hpage.
  rewrite (run_handleLoadMore_open env uid s1 init c H1 H2 H3).
  cbn [trace outcome final customers hasMore isInitialLoading isLoadingMore].
  rewrite H3. repeat split.
Qed.

Lemma first_page_then_load_more_witness :
  ("u1" <> "" /\
   isLoadingMore initialState = false /\
   customersWithDue (paginated env_pages (firstPageRequest "u1")) = [alice] ++ [bob] /\
   hasMoreResult (paginated env_pages (firstPageRequest "u1")) = true) /\
  let s1 := final (run env_pages (mountEffect "u1") initialState) in
  trace (run env_pages (handleLoadMore "u1" s1) s1) =
    [FetchPage (nextPageRequest "u1" bob)] /\
  customers (final (run env_pages (handleLoadMore "u1" s1) s1)) =
    [alice; bob; carol] /\
  hasMore (final (run env_pages (handleLoadMore "u1" s1) s1)) = false.
Proof.
  split.
  - split; [discriminate | repeat split].
  - destruct (first_page_then_load_more env_pages "u1" initialState [alice] bob)
      as (Ht & _ & Hc & Hm & _);
      [discriminate | reflexivity | reflexivity | reflexivity |].
    cbv zeta. split; [exact Ht | split; [exact Hc | exact Hm]].
Defined.

(** X8: nothing cancels a request in flight, and the two continuations
    compose by arrival order. If a first page (of a reload) arrives and then
    the page of an earlier "load more", the list is the first page followed
    by the late page; in the other order the first page replaces everything
    and the "load more" page is lost. In both orders [hasMore] is the flag of
    the page that arrived last and both loading flags end cleared. *)
Theorem reload_and_load_more_by_arrival (env : Env) (uid : string)
  (s0 snap s1 : State) (r1 r2 : PageRequest)
  (k1 k2 : PageResponse -> Task unit) :
  outcome (advance env (mountEffect uid) s0) = PendingPage r1 k1 ->
  outcome (advance env (handleLoadMore uid snap) s1) = PendingPage r2 k2 ->
  forall (s : State) (p1 p2 : PageResponse),
    let first_then_more :=
      final (advance env (k2 p2) (final (advance env (k1 p1) s))) in
    let more_then_first :=
      final (advance env (k1 p1) (final (advance env (k2 p2) s))) in
    customers first_then_more = customersWithDue p1 ++ customersWithDue p2 /\
    hasMore first_then_more = hasMoreResult p2 /\
    customers more_then_first = customersWithDue p1 /\
    hasMore more_then_first = hasMoreResult p1 /\
    isInitialLoading first_then_more = false /\
    isLoadingMore first_then_more = false /\
    isInitialLoading more_then_first = false /\
    isLoadingMore more_then_first = false.
Proof.
  intros H1 H2 s p1 p2.
  destruct (mountEffect_pending env uid s0 r1 k1 H1) as [_ K1].
  destruct (handleLoadMore_pending env uid snap s1 r2 k2 H2) as [_ K2].
  cbv zeta. rewrite !K1, !K2. cbn.
  repeat split.
Qed.

Lemma reload_and_load_more_by_arrival_witness :
  exists r1 k1 r2 k2,
    outcome (advance env_pages (mountEffect "u1") initialState) =
      PendingPage r1 k1 /\
    outcome (advance env_pages (handleLoadMore "u1" (loaded [alice] true))
               (loaded [alice] true)) = PendingPage r2 k2 /\
    let s := setIsLoadingMore true (loaded [alice] true) in
    let p1 := mkPageResponse [carol] true in
    let p2 := mkPageResponse [bob] false in
    customers (final (advance env_pages (k2 p2)
                        (final (advance env_pages (k1 p1) s)))) = [carol; bob] /\
    customers (final (advance env_pages (k1 p1)
                        (final (advance env_pages (k2 p2) s)))) = [carol].
Proof.
  eexists. eexists. eexists. eexists.
  split; [reflexivity|]. split; [reflexivity|].
  destruct (reload_and_load_more_by_arrival env_pages "u1" initialState
              (loaded [alice] true) (loaded [alice] true) _ _ _ _
              eq_refl eq_refl
              (setIsLoadingMore true (loaded [alice] true))
              (mkPageResponse [carol] true) (mkPageResponse [bob] false))
    as (Ha & _ & Hb & _).
  cbv zeta. split; [exact Ha | exact Hb].
Defined.

(** ** Sessions of user actions *)

Lemma act_extends (env : Env) (uid : string) (auth : option AuthUser.t)
  (s : State) (a : Action) :
  (exists suffix, customers (act env uid auth s a) = customers s ++ suffix) /\
  isInitialLoading (act env uid auth s a) = isInitialLoading s.
Proof.
  unfold act. destruct a as [|fmt]; cbn [handlerOf].
  - destruct (handleLoadMore_cases uid s) as [-> | [-> | [c ->]]]; cbn.
    + split; [exists []; now rewrite app_nil_r | reflexivity].
    + split; [exists []; now rewrite app_nil_r | reflexivity].
    + split; [eexists; reflexivity | reflexivity].
  - rewrite (stateless_run env _ (handleDownload_stateless uid auth fmt) s).
    split; [exists []; now rewrite app_nil_r | reflexivity].
Qed.

(** X9: the loaded list only grows at its end. After any sequence of
    "load more" clicks and exports, each run to completion, the list that
    was loaded before is a prefix of the list loaded after, and
    [isInitialLoading] is what it was. *)
Theorem session_keeps_loaded_prefix (env : Env) (uid : string)
  (auth : option AuthUser.t) (actions : list Action) (s : State) :
  (exists suffix,
      customers (session env uid auth actions s) = customers s ++ suffix) /\
  (List.length (customers s) <=
   List.length (customers (session env uid auth actions s)))%nat /\
  (forall i c, nth_error (customers s) i = Some c ->
     nth_error (customers (session env uid auth actions s)) i = Some c) /\
  isInitialLoading (session env uid auth actions s) = isInitialLoading s.
Proof.
  assert (H : (exists suffix,
      customers (session env uid auth actions s) = customers s ++ suffix) /\
      isInitialLoading (session env uid auth actions s) = isInitialLoading s).
  { unfold session. revert s.
    induction actions as [|a actions IH]; intros s; cbn [fold_left].
    - split; [exists []; now rewrite app_nil_r | reflexivity].
    - destruct (IH (act env uid auth s a)) as [[suf2 E2] F2].
      destruct (act_extends env uid auth s a) as [[suf1 E1] F1].
      split; [|congruence].
      exists (suf1 ++ suf2). rewrite E2, E1. now rewrite app_assoc. }
  destruct H as [[suffix E] F].
  split; [now exists suffix|]. split; [|split; [|exact F]].
  - rewrite E, length_app. lia.
  - intros i c Hi. rewrite E. rewrite nth_error_app1; [exact Hi|].
    apply nth_error_Some. congruence.
Qed.

Lemma session_keeps_loaded_prefix_witness :
  nth_error (customers (loaded [alice; bob] true)) 1 = Some bob /\
  nth_error
    (customers (session env_pages "u1" (Some shop)
                  [ClickDownload csv; ClickLoadMore; ClickLoadMore;
                   ClickDownload pdf]
                  (loaded [alice; bob] true))) 1 = Some bob.
Proof.
  split; [reflexivity|].
  destruct (session_keeps_loaded_prefix env_pages "u1" (Some shop)
              [ClickDownload csv; ClickLoadMore; ClickLoadMore;
               ClickDownload pdf]
              (loaded [alice; bob] true)) as (_ & _ & H & _).
  apply H. reflexivity.
Defined.

(** X10: once the data layer has said there is no more ([hasMore] false),
    the pagination state is final: no sequence of "load more" clicks and
    exports changes the list or any flag, and a click issues no request. *)
Theorem exhausted_list_is_final (env : Env) (uid : string)
  (auth : option AuthUser.t) (actions : list Action) (s : State) :
  hasMore s = false ->
  session env uid auth actions s = s /\
  trace (run env (handleLoadMore uid (session env uid auth actions s))
           (session env uid auth actions s)) = [] /\
  loadMoreButton (render (session env uid auth actions s)) = None.
Proof.
  intros H. rewrite (session_closed env uid auth actions s) by (now left).
  rewrite (run_handleLoadMore_closed env uid s) by (now left).
  split; [reflexivity|]. split; [reflexivity|].
  unfold render. cbn [loadMoreButton]. now rewrite H.
Qed.

Lemma exhausted_list_is_final_witness :
  hasMore (loaded [alice] false) = false /\
  session env_pages "u1" (Some shop)
    [ClickLoadMore; ClickDownload pdf; ClickLoadMore] (loaded [alice] false) =
    loaded [alice] false.
Proof.
  split; [reflexivity|].
  apply (exhausted_list_is_final env_pages "u1" (Some shop)
           [ClickLoadMore; ClickDownload pdf; ClickLoadMore]
           (loaded [alice] false)).
  reflexivity.
Defined.

(** ** What the handlers ask of the data layer *)

(** X11: every export attempt starts by fetching the full due-balance set
    of the component's user, before the signed-in check (so also when
    nobody is signed in) and before anything is shown; it issues no
    paginated request. When the set arrives, the handler completes with
    exactly one visible effect, the notice or a file, and no further
    request. When the fetch is rejected, there is no notice and no file. *)
Theorem export_fetches_full_set_once (env : Env) (uid : string)
  (auth : option AuthUser.t) (fmt : FormatType) (s : State) :
  exists k,
    advance env (handleDownload uid auth fmt) s =
      mkResult (PendingAll uid k) s [FetchAll uid] /\
    (forall (all : list CustomerWithDue.t) (s' : State),
        exists e,
          advance env (k all) s' =
            mkResult (Settled (Fulfilled tt)) s' [Did e]) /\
    whenFetchRejected env (handleDownload uid auth fmt) s =
      mkResult FetchRejected s [FetchAll uid].
Proof.
  unfold whenFetchRejected, handleDownload, getCustomersWithDueBalance.
  cbn [bind advance outcome final trace].
  eexists. split; [reflexivity|]. split; [|reflexivity].
  intros all s'. cbn [bind].
  destruct (Nat.eqb (List.length all) 0); [eexists; reflexivity|].
  destruct auth as [u|]; [|eexists; reflexivity].
  destruct fmt; eexists; reflexivity.
Qed.

(** X12: the initial load and "load more" talk to the data layer only
    through the paginated fetch: whatever the state, each issues at most one
    request, always for page size 5 and for the component's user, and
    neither shows a notice, produces a file or fetches the full set. *)
Theorem pagination_requests_only (env : Env) (uid : string) (snap s : State)
  (ev : Event) :
  In ev (trace (run env (handleLoadMore uid snap) s)) \/
  In ev (trace (run env (mountEffect uid) s)) ->
  (exists req, ev = FetchPage req /\ pageLimit req = 5%N /\ userId req = uid) /\
  (List.length (trace (run env (handleLoadMore uid snap) s)) <= 1)%nat /\
  (List.length (trace (run env (mountEffect uid) s)) <= 1)%nat.
Proof.
  intros H. split; [|split].
  - destruct H as [H | H].
    + destruct (handleLoadMore_cases uid snap) as [E | [E | [c E]]];
        rewrite E in H; cbn in H; try contradiction.
      destruct H as [<- | []]. eexists. repeat split.
    + unfold mountEffect in H. destruct (truthy uid); cbn in H; [|contradiction].
      destruct H as [<- | []]. eexists. repeat split.
  - destruct (handleLoadMore_cases uid snap) as [-> | [-> | [c ->]]]; cbn; lia.
  - unfold mountEffect. destruct (truthy uid); cbn; lia.
Qed.

Lemma pagination_requests_only_witness :
  In (FetchPage (nextPageRequest "u1" bob))
     (trace (run env_pages (handleLoadMore "u1" (loaded [alice; bob] true))
               (loaded [alice; bob] true))) /\
  exists req,
    FetchPage (nextPageRequest "u1" bob) = FetchPage req /\
    pageLimit req = 5%N /\ userId req = "u1".
Proof.
  split; [left; reflexivity|].
  apply (pagination_requests_only env_pages "u1" (loaded [alice; bob] true)
           (loaded [alice; bob] true) (FetchPage (nextPageRequest "u1" bob))).
  left. left. reflexivity.
Defined.

(** ** The PDF page *)

Lemma or_else_truthy (v : option string) (fallback : string) :
  truthy fallback = true -> truthy (or_else v fallback) = true.
Proof.
  intros H. destruct v as [x|]; cbn; [|exact H].
  destruct (truthy x) eqn:E; [exact E | exact H].
Qed.

Lemma or_else_filled (v : option string) (fallback : string) :
  or_else v fallback = if filled v then or_else v "" else fallback.
Proof.
  unfold filled. destruct v as [x|]; cbn; [|reflexivity].
  destruct x; reflexivity.
Qed.

(** X13: the letterhead always starts with a non-empty company name, drawn
    bold in size 16 at (14, 20): the profile's company name when filled in,
    and "Bookstore" when it is missing or empty. The address and phone
    lines follow at (14, 26) and (14, 32) even when empty, and the page
    always ends with the title and the "As of" line. *)
Theorem pdf_letterhead_company_name (u : AuthUser.t) (dateString : string)
  (body : list JsObject) :
  exists rightSide,
    texts (reportPdf u dateString body) =
      [ mkTextItem (if filled (AuthUser.companyName u)
                    then or_else (AuthUser.companyName u) ""
                    else "Bookstore")
          14 20 AlignLeft 16 FontBold 0;
        mkTextItem (or_else (AuthUser.address u) "") 14 26 AlignLeft 10
          FontNormal 0;
        mkTextItem (or_else (AuthUser.phone u) "") 14 32 AlignLeft 10
          FontNormal 0 ]
      ++ rightSide ++
      [ mkTextItem "Pending Receivables Report" 105 45 AlignCenter 14 FontBold 0;
        mkTextItem ("As of " ++ dateString)%string 105 51 AlignCenter 10
          FontNormal 100 ] /\
    forallb rightAligned rightSide = true /\
    (forall first rest, texts (reportPdf u dateString body) = first :: rest ->
       content first <> "").
Proof.
  unfold reportPdf. cbn [texts]. unfold letterhead, reportTitle.
  rewrite (or_else_filled (AuthUser.companyName u) "Bookstore").
  eexists. split; [rewrite <- app_assoc; reflexivity|]. split.
  - destruct (truthy (or_else (AuthUser.bkashNumber u) ""));
      destruct (truthy (or_else (AuthUser.bankInfo u) "")); reflexivity.
  - intros first rest H. cbn [app] in H. injection H as <- _.
    cbn [content]. unfold filled.
    destruct (truthy (or_else (AuthUser.companyName u) "")) eqn:E.
    + intros E'. rewrite E' in E. discriminate E.
    + discriminate.
Qed.

Lemma pdf_letterhead_company_name_witness :
  texts (reportPdf blank_user "November 1st, 2026" []) =
    [mkTextItem "Bookstore" 14 20 AlignLeft 16 FontBold 0] ++
    tl (texts (reportPdf blank_user "November 1st, 2026" [])) /\
  content (hd (mkTextItem "" 0 0 AlignLeft 0 FontNormal 0)
              (texts (reportPdf blank_user "November 1st, 2026" []))) <> "".
Proof.
  split; [reflexivity|].
  destruct (pdf_letterhead_company_name blank_user "November 1st, 2026" [])
    as (rs & _ & _ & H).
  apply (H _ (tl (texts (reportPdf blank_user "November 1st, 2026" [])))).
  reflexivity.
Defined.

(** X14: the payment lines on the right stack from the top without a gap:
    with both filled in, "Bkash" is at (200, 20) and "Bank" at (200, 26);
    with only one of them, that one is at (200, 20); with none, nothing is
    drawn on the right. No two text items of the page share an anchor. *)
Theorem pdf_right_header_stacks (u : AuthUser.t) (dateString : string)
  (body : list JsObject) :
  let right := filter rightAligned (texts (reportPdf u dateString body)) in
  let count :=
    ((if filled (AuthUser.bkashNumber u) then 1 else 0) +
     (if filled (AuthUser.bankInfo u) then 1 else 0))%nat in
  map anchor right = firstn count [(200, 20); (200, 26)]%Z /\
  map content right =
    (if filled (AuthUser.bkashNumber u)
     then [("Bkash: " ++ or_else (AuthUser.bkashNumber u) "")%string] else []) ++
    (if filled (AuthUser.bankInfo u)
     then [("Bank: " ++ or_else (AuthUser.bankInfo u) "")%string] else []) /\
  List.length (texts (reportPdf u dateString body)) = (5 + count)%nat /\
  NoDup (map anchor (texts (reportPdf u dateString body))).
Proof.
  unfold reportPdf. cbn [texts]. unfold letterhead, reportTitle, filled.
  destruct (truthy (or_else (AuthUser.bkashNumber u) ""));
    destruct (truthy (or_else (AuthUser.bankInfo u) ""));
    cbn -[String.append or_else];
    (repeat split;
     repeat (constructor; [cbn; intuition discriminate|]); constructor).
Qed.

(** ** Rows and columns *)


